(** * CRUD Lambda handlers of the infrastructure-as-code labs

    A shallow embedding of three TypeScript Lambda handlers of the repository:

    - [Actors]: [solutions/01-DeployLambdaUsingCDK/src/index.ts]
      ([ActorsController] and [handler]);
    - [TVShowsL3]: [cdk/src/lambda-l3/index.ts]
      ([TVShowsController] and [handler]);
    - [TVShowsTS]: the first program of [unnamed/part_003]
      ([TVShowsController] on the v2 DocumentClient and [handler]);
    - [TVShowsL1]: the second [handler] of [cdk/src/lambda-l3/index.ts];
    - [TVShowsL2]: the second program of [unnamed/part_003]
      ([listTVShows], [getTVShow], [createTVShow], [deleteTVShow], [handler]).

    JavaScript values are [jsval]; a JavaScript object is an association list
    in property order.  Asynchronous code runs in a state and exception monad
    [M] over a [world] holding the DynamoDB table, the wall clock and the trace
    of DynamoDB calls made so far.  The DynamoDB service is the environment
    [env]: it decides for every call whether it faults (and with which error
    message) and how long it takes. *)

From Stdlib Require Import ZArith String Ascii List Bool.
From stdpp Require Import base gmap strings list pretty.

Local Set Warnings "-register-all".
Open Scope Z_scope.

(** ** JavaScript values *)

(** [JNum m e] is the number [m * 10^e]. *)
Inductive jsval : Type :=
| JUndef
| JNull
| JBool (b : bool)
| JNum (m e : Z)
| JStr (s : string)
| JArr (l : list jsval)
| JObj (o : list (string * jsval)).

Abbreviation obj := (list (string * jsval)).

(** Property read on an own property of a plain object; [None] is a missing
    property (the program never reads a name of [Object.prototype]). *)
Fixpoint obj_lookup (o : obj) (k : string) : option jsval :=
  match o with
  | [] => None
  | (k', v) :: o' => if String.eqb k' k then Some v else obj_lookup o' k
  end.

(** [o[k] = v]: an existing property keeps its position, a new one is
    appended. *)
Fixpoint obj_set (o : obj) (k : string) (v : jsval) : obj :=
  match o with
  | [] => [(k, v)]
  | (k', v') :: o' =>
      if String.eqb k' k then (k', v) :: o' else (k', v') :: obj_set o' k v
  end.

(** [{...acc, ...src}]: the properties of [src] copied over [acc] in order. *)
Definition obj_spread (acc src : obj) : obj :=
  fold_left (fun a kv => obj_set a kv.1 kv.2) src acc.

(** [o.k] for an object: [undefined] when missing. *)
Definition obj_get (o : obj) (k : string) : jsval :=
  match obj_lookup o k with Some v => v | None => JUndef end.

(** ToBoolean. *)
Definition truthy (v : jsval) : bool :=
  match v with
  | JUndef | JNull => false
  | JBool b => b
  | JNum m _ => negb (Z.eqb m 0)
  | JStr s => negb (String.eqb s "")
  | JArr _ | JObj _ => true
  end.

(** [a || b] *)
Definition js_or (a b : jsval) : jsval := if truthy a then a else b.

(** [a ?? b] *)
Definition js_nullish (a b : jsval) : jsval :=
  match a with JUndef | JNull => b | _ => a end.

(** Own enumerable string-keyed properties, as object rest and spread copy
    them: indices of arrays and strings, nothing for other primitives. *)
Definition own_props (v : jsval) : obj :=
  match v with
  | JObj o => o
  | JArr l => imap (fun i x => (pretty (N.of_nat i), x)) l
  | JStr s =>
      imap (fun i c => (pretty (N.of_nat i), JStr (String c EmptyString)))
        (String.list_ascii_of_string s)
  | _ => []
  end.

(** ** ISO-8601 rendering of [Date.prototype.toISOString] *)

(** Zero-padded decimal rendering of a non-negative [n] on [w] digits. *)
Definition pad (w : nat) (n : Z) : string :=
  let s := pretty n in
  String.append (String.string_of_list_ascii (repeat "0"%char (w - String.length s))) s.

(** Days since 1970-01-01 to (year, month, day) in the proleptic Gregorian
    calendar (the civil-from-days algorithm). *)
Definition civil_from_days (z0 : Z) : Z * Z * Z :=
  let z := z0 + 719468 in
  let era := z / 146097 in
  let doe := z - era * 146097 in
  let yoe := (doe - doe / 1460 + doe / 36524 - doe / 146096) / 365 in
  let doy := doe - (365 * yoe + yoe / 4 - yoe / 100) in
  let mp := (5 * doy + 2) / 153 in
  let d := doy - (153 * mp + 2) / 5 + 1 in
  let m := if mp <? 10 then mp + 3 else mp - 9 in
  let y := yoe + era * 400 in
  ((if m <=? 2 then y + 1 else y), m, d).

(** [new Date(t).toISOString()] for a millisecond time value [t] whose year
    lies in 0..9999. *)
Definition iso_string (t : Z) : string :=
  let days := t / 86400000 in
  let ms := t mod 86400000 in
  let '(y, mo, d) := civil_from_days days in
  pad 4 y +:+ "-" +:+ pad 2 mo +:+ "-" +:+ pad 2 d +:+ "T" +:+
  pad 2 (ms / 3600000) +:+ ":" +:+ pad 2 ((ms / 60000) mod 60) +:+ ":" +:+
  pad 2 ((ms / 1000) mod 60) +:+ "." +:+ pad 3 (ms mod 1000) +:+ "Z".



(** ** [JSON.parse] *)

Module Json.

Definition is_ws (c : ascii) : bool :=
  match c with " " | "009" | "010" | "013" => true | _ => false end%char.

Fixpoint skip_ws (s : string) : string :=
  match s with
  | String c s' => if is_ws c then skip_ws s' else s
  | EmptyString => s
  end.

Definition digit (c : ascii) : option Z :=
  let n := Z.of_nat (nat_of_ascii c) in
  if (48 <=? n) && (n <=? 57) then Some (n - 48) else None.

Definition hex_digit (c : ascii) : option Z :=
  let n := Z.of_nat (nat_of_ascii c) in
  if (48 <=? n) && (n <=? 57) then Some (n - 48)
  else if (65 <=? n) && (n <=? 70) then Some (n - 55)
  else if (97 <=? n) && (n <=? 102) then Some (n - 87)
  else None.

(** A maximal run of decimal digits: (value so far, number of digits,
    rest). *)
Fixpoint digits (s : string) (acc : Z) (cnt : Z) : Z * Z * string :=
  match s with
  | String c s' =>
      match digit c with
      | Some d => digits s' (acc * 10 + d) (cnt + 1)
      | None => (acc, cnt, s)
      end
  | EmptyString => (acc, cnt, s)
  end.

(** [int]: [0] or a non-zero digit followed by digits. *)
Definition parse_int (s : string) : option (Z * string) :=
  match s with
  | String "0" r => Some (0, r)
  | String c _ =>
      match digit c with
      | Some _ => let '(v, _, r) := digits s 0 0 in Some (v, r)
      | None => None
      end
  | EmptyString => None
  end%char.

(** [frac]: optional [.] and at least one digit, giving the digits as an
    integer and their count. *)
Definition parse_frac (m : Z) (s : string) : option (Z * Z * string) :=
  match s with
  | String "." r =>
      let '(v, n, r') := digits r m 0 in
      if Z.eqb n 0 then None else Some (v, n, r')
  | _ => Some (m, 0, s)
  end%char.

(** [exp]: optional [e] or [E], sign and at least one digit. *)
Definition parse_exp (s : string) : option (Z * string) :=
  let body (sign : Z) (r : string) :=
    let '(v, n, r') := digits r 0 0 in
    if n =? 0 then None else Some (sign * v, r') in
  match s with
  | String ("e" | "E") r =>
      match r with
      | String "+" r' => body 1 r'
      | String "-" r' => body (-1) r'
      | _ => body 1 r
      end
  | _ => Some (0, s)
  end%char.

(** A JSON number; its value is kept exactly as [m * 10^e]. *)
Definition parse_number (s : string) : option (jsval * string) :=
  let '(sign, s1) :=
    match s with String "-" r => (-1, r) | _ => (1, s) end%char in
  match parse_int s1 with
  | None => None
  | Some (i, s2) =>
      match parse_frac i s2 with
      | None => None
      | Some (m, nf, s3) =>
          match parse_exp s3 with
          | None => None
          | Some (e, s4) => Some (JNum (sign * m) (e - nf), s4)
          end
      end
  end.

(** UTF-8 encoding of a UTF-16 code unit from a [\uXXXX] escape. *)
Definition utf8_of_unit (u : Z) : string :=
  let b (n : Z) := String (ascii_of_nat (Z.to_nat n)) EmptyString in
  if u <? 128 then b u
  else if u <? 2048 then b (192 + u / 64) +:+ b (128 + u mod 64)
  else b (224 + u / 4096) +:+ b (128 + (u / 64) mod 64) +:+ b (128 + u mod 64).

(** The characters of a string literal after its opening quote, accumulated
    in reverse order. *)
Fixpoint parse_chars (s : string) (acc : string) : option (string * string) :=
  match s with
  | EmptyString => None
  | String "034" r => Some (acc, r)
  | String "\" r =>
      match r with
      | String "034" r' => parse_chars r' (String "034" acc)
      | String "\" r' => parse_chars r' (String "\" acc)
      | String "/" r' => parse_chars r' (String "/" acc)
      | String "b" r' => parse_chars r' (String "008" acc)
      | String "f" r' => parse_chars r' (String "012" acc)
      | String "n" r' => parse_chars r' (String "010" acc)
      | String "r" r' => parse_chars r' (String "013" acc)
      | String "t" r' => parse_chars r' (String "009" acc)
      | String "u" (String a (String b (String c (String d r'')))) =>
          match hex_digit a, hex_digit b, hex_digit c, hex_digit d with
          | Some a', Some b', Some c', Some d' =>
              let u := ((a' * 16 + b') * 16 + c') * 16 + d' in
              parse_chars r'' (String.rev (utf8_of_unit u) +:+ acc)
          | _, _, _, _ => None
          end
      | _ => None
      end
  | String c r =>
      if Nat.ltb (nat_of_ascii c) 32 then None else parse_chars r (String c acc)
  end%char.

Definition parse_string (s : string) : option (string * string) :=
  match s with
  | String "034" r =>
      match parse_chars r EmptyString with
      | Some (acc, r') => Some (String.rev acc, r')
      | None => None
      end
  | _ => None
  end%char.

Definition parse_literal (s : string) : option (jsval * string) :=
  if String.prefix "true" s then Some (JBool true, String.substring 4 (String.length s) s)
  else if String.prefix "false" s then Some (JBool false, String.substring 5 (String.length s) s)
  else if String.prefix "null" s then Some (JNull, String.substring 4 (String.length s) s)
  else None.

(** Values, array elements and object members; [fuel] bounds the nesting and
    the number of elements, each step of which consumes input. *)
Fixpoint parse_value (fuel : nat) (s : string) {struct fuel} : option (jsval * string) :=
  match fuel with
  | O => None
  | S f =>
      match skip_ws s with
      | String "[" r =>
          match skip_ws r with
          | String "]" r' => Some (JArr [], r')
          | _ => match parse_elems f [] r with
                 | Some (l, r') => Some (JArr l, r')
                 | None => None
                 end
          end
      | String "{" r =>
          match skip_ws r with
          | String "}" r' => Some (JObj [], r')
          | _ => match parse_members f [] r with
                 | Some (o, r') => Some (JObj o, r')
                 | None => None
                 end
          end
      | String "034" _ as s' =>
          match parse_string s' with
          | Some (str, r) => Some (JStr str, r)
          | None => None
          end
      | String ("-" | "0" | "1" | "2" | "3" | "4" | "5" | "6" | "7" | "8" | "9") _ as s' =>
          parse_number s'
      | s' => parse_literal s'
      end%char
  end
with parse_elems (fuel : nat) (acc : list jsval) (s : string) {struct fuel}
  : option (list jsval * string) :=
  match fuel with
  | O => None
  | S f =>
      match parse_value f s with
      | None => None
      | Some (v, r) =>
          match skip_ws r with
          | String "," r' => parse_elems f (acc ++ [v]) r'
          | String "]" r' => Some (acc ++ [v], r')
          | _ => None
          end%char
      end
  end
with parse_members (fuel : nat) (acc : obj) (s : string) {struct fuel}
  : option (obj * string) :=
  match fuel with
  | O => None
  | S f =>
      match parse_string (skip_ws s) with
      | None => None
      | Some (k, r) =>
          match skip_ws r with
          | String ":" r1 =>
              match parse_value f r1 with
              | None => None
              | Some (v, r2) =>
                  (* a repeated key keeps its first position, last value *)
                  match skip_ws r2 with
                  | String "," r' => parse_members f (obj_set acc k v) r'
                  | String "}" r' => Some (obj_set acc k v, r')
                  | _ => None
                  end
              end
          | _ => None
          end%char
      end
  end.

(** [JSON.parse(text)]: [None] is the [SyntaxError] it throws. *)
Definition parse (text : string) : option jsval :=
  match parse_value (2 * String.length text + 2) text with
  | Some (v, r) => match skip_ws r with EmptyString => Some v | _ => None end
  | None => None
  end.

End Json.






(** ** DynamoDB, the clock, and the handler monad *)

(** The DynamoDB calls the handlers send (table name aside). *)
Inductive gw_call : Type :=
| GScan
| GGet (key : jsval)
| GPut (item : obj)
| GDelete (key : jsval).

(** The table, keyed by the string partition key [id]; the wall clock in
    milliseconds; the calls sent so far, oldest first. *)
Record world : Type := mk_world {
  table : gmap string obj;
  clock : Z;
  trace : list gw_call
}.

(** The service: whether a call faults (the message of the error the SDK
    throws) and how long it takes. *)
Record env : Type := mk_env {
  fault : gw_call -> option string;
  latency : gw_call -> N
}.

(** A service that never faults. *)
Definition healthy (E : env) : Prop := forall c, fault E c = None.

Inductive outcome (A : Type) : Type :=
| Ok (a : A)
| Throw (message : string).
Arguments Ok {A} a.
Arguments Throw {A} message.

(** An async function: it resolves to a value or rejects with an error. *)
Definition M (A : Type) : Type := env -> world -> outcome A * world.

Definition ret {A} (a : A) : M A := fun _ w => (Ok a, w).

Definition bind {A B} (m : M A) (k : A -> M B) : M B :=
  fun E w =>
    match m E w with
    | (Ok a, w') => k a E w'
    | (Throw e, w') => (Throw e, w')
    end.

Notation "x <- m ;; k" := (bind m (fun x => k))
  (at level 100, m at next level, right associativity).

Definition throw {A} (e : string) : M A := fun _ w => (Throw e, w).

(** [try { m } catch (error) { h(error.message) }] *)
Definition try_catch {A} (m : M A) (h : string -> M A) : M A :=
  fun E w =>
    match m E w with
    | (Ok a, w') => (Ok a, w')
    | (Throw e, w') => h e E w'
    end.

(** [new Date()] read as a millisecond time value. *)
Definition now : M Z := fun _ w => (Ok (clock w), w).

(** Sending a call: it is recorded, takes its latency, and may fault. *)
Definition send (c : gw_call) : M unit :=
  fun E w =>
    let w' := mk_world (table w) (clock w + Z.of_N (latency E c)) (trace w ++ [c]) in
    match fault E c with
    | Some e => (Throw e, w')
    | None => (Ok tt, w')
    end.

Definition key_error : string :=
  "The provided key element does not match the schema".

(** [ScanCommand]: the [Items] of the table. *)
Definition gw_scan : M (list obj) :=
  _ <- send GScan ;; fun _ w => (Ok (map snd (map_to_list (table w))), w).

(** [GetCommand] with [Key: { id: key }]: the [Item], if any. *)
Definition gw_get (key : jsval) : M (option obj) :=
  _ <- send (GGet key) ;;
  fun _ w =>
    match key with
    | JStr k => (Ok (table w !! k), w)
    | _ => (Throw key_error, w)
    end.

(** [PutCommand] with [Item: item]: a full overwrite of the item with the
    same key. *)
Definition gw_put (item : obj) : M unit :=
  _ <- send (GPut item) ;;
  fun _ w =>
    match obj_lookup item "id" with
    | Some (JStr k) => (Ok tt, mk_world (<[k := item]> (table w)) (clock w) (trace w))
    | _ => (Throw key_error, w)
    end.

(** [DeleteCommand] with [Key: { id: key }]. *)
Definition gw_delete (key : jsval) : M unit :=
  _ <- send (GDelete key) ;;
  fun _ w =>
    match key with
    | JStr k => (Ok tt, mk_world (delete k (table w)) (clock w) (trace w))
    | _ => (Throw key_error, w)
    end.

(** Property read [v.k]: a [TypeError] on [null] and [undefined]. *)
Definition get_prop (v : jsval) (k : string) : M jsval :=
  match v with
  | JUndef => throw ("Cannot read properties of undefined (reading '" +:+ k +:+ "')")
  | JNull => throw ("Cannot read properties of null (reading '" +:+ k +:+ "')")
  | JObj o => ret (obj_get o k)
  | _ => ret JUndef
  end.

(** A string between double quotes, for writing JSON texts. *)
Definition quoted (s : string) : string :=
  String "034"%char (s +:+ String "034"%char EmptyString).

(** [JSON.parse(text)] *)
Definition json_parse (text : string) : M jsval :=
  match Json.parse text with
  | Some v => ret v
  | None => throw "Unexpected token in JSON"
  end.

(** ** Lambda proxy events and results *)

Record event : Type := mk_event {
  httpMethod : string;
  resource : string;
  path : string;
  pathParameters : option (list (string * string));
  ev_body : option string
}.

(** [event.pathParameters?.id] *)
Definition path_id (ev : event) : option string :=
  match pathParameters ev with
  | Some ps => match find (fun kv => String.eqb kv.1 "id") ps with
               | Some kv => Some kv.2
               | None => None
               end
  | None => None
  end.

(** [event.body || '{}'] *)
Definition body_or_empty (ev : event) : string :=
  match ev_body ev with
  | Some b => if String.eqb b "" then "{}" else b
  | None => "{}"
  end.

(** A result body: [JSON.stringify(v)] or a literal string. *)
Inductive rbody : Type :=
| Body_json (v : jsval)
| Body_text (s : string).

Record response : Type := mk_response {
  statusCode : Z;
  headers : list (string * string);
  body : rbody
}.

Definition content_type : string * string := ("Content-Type", "application/json").
Definition allow_origin : string * string := ("Access-Control-Allow-Origin", "*").

(** [{ message: m }] *)
Definition message (m : string) : rbody := Body_json (JObj [("message", JStr m)]).

(** The value of [process.env]. *)
Record config : Type := mk_config { TABLE_NAME : option string }.

(** [!tableName] *)
Definition table_name_unset (cfg : config) : bool :=
  match TABLE_NAME cfg with
  | Some s => String.eqb s ""
  | None => true
  end.

(** [!x] on an optional string parameter: [undefined] and [''] are falsy. *)
Definition nonempty (x : option string) : option string :=
  match x with
  | Some s => if String.eqb s "" then None else Some s
  | None => None
  end.

(** Decimal rendering of [m * 10^e] as [Number.prototype.toString] gives it
    for magnitudes in [1e-7, 1e21). *)
Definition number_to_string (m e : Z) : string :=
  let sign := if m <? 0 then "-" else "" in
  let a := Z.abs m in
  if 0 <=? e then sign +:+ pretty (a * 10 ^ e)
  else
    let d := 10 ^ (- e) in
    let fp := a mod d in
    let fix trim (n : Z) (k : nat) : Z * Z :=
      match k with
      | O => (n, 0)
      | S k' => if n mod 10 =? 0 then let '(n', c) := trim (n / 10) k' in (n', c + 1)
                else (n, 0)
      end in
    if fp =? 0 then sign +:+ pretty (a / d)
    else let '(f, dropped) := trim fp (Z.to_nat (- e)) in
         sign +:+ pretty (a / d) +:+ "." +:+ pad (Z.to_nat (- e - dropped)) f.

(** String conversion of a value in a template literal [`${v}`]. *)
Fixpoint to_js_string (v : jsval) : string :=
  match v with
  | JUndef => "undefined"
  | JNull => "null"
  | JBool b => if b then "true" else "false"
  | JNum m e => number_to_string m e
  | JStr s => s
  | JArr l =>
      (* Array.prototype.join: null and undefined elements give '' *)
      let fix join (l : list jsval) : string :=
        match l with
        | [] => ""
        | [x] => match x with JUndef | JNull => "" | _ => to_js_string x end
        | x :: l' => (match x with JUndef | JNull => "" | _ => to_js_string x end)
                       +:+ "," +:+ join l'
        end in
      join l
  | JObj _ => "[object Object]"
  end.


(** ** [solutions/01-DeployLambdaUsingCDK/src/index.ts] *)

Module Actors.

(** [GET /actors] *)
Definition listAll : M response :=
  try_catch
    (items <- gw_scan ;;
     ret (mk_response 200 [content_type; allow_origin]
            (Body_json (JObj [("actors", JArr (map JObj items));
                              ("count", js_or (JNum (Z.of_nat (length items)) 0) (JNum 0 0))]))))
    (fun _ => ret (mk_response 500 [content_type] (message "Failed to retrieve actors"))).

(** [GET /actors/{id}] *)
Definition getById (id : string) : M response :=
  try_catch
    (item <- gw_get (JStr id) ;;
     match item with
     | None => ret (mk_response 404 [content_type]
                      (message ("Actor with id " +:+ id +:+ " not found")))
     | Some it => ret (mk_response 200 [content_type; allow_origin] (Body_json (JObj it)))
     end)
    (fun _ => ret (mk_response 500 [content_type] (message "Failed to retrieve actor"))).

(** The [newActor] literal of [create]. *)
Definition new_actor (actor : obj) (stamp : string) : obj :=
  [("id", obj_get actor "id");
   ("name", obj_get actor "name");
   ("age", obj_get actor "age");
   ("nationality", obj_get actor "nationality");
   ("knownFor", js_or (obj_get actor "knownFor") (JArr []));
   ("isActive", js_nullish (obj_get actor "isActive") (JBool true));
   ("createdAt", JStr stamp);
   ("updatedAt", JStr stamp)].

(** [POST /actors] *)
Definition create (actor : jsval) : M response :=
  try_catch
    (aid <- get_prop actor "id" ;;
     (if negb (truthy aid) then
        ret (mk_response 400 [content_type] (message "id and name are required fields"))
      else
     aname <- get_prop actor "name" ;;
     if negb (truthy aname) then
        ret (mk_response 400 [content_type] (message "id and name are required fields"))
     else
     existing <- gw_get aid ;;
     match existing with
     | Some _ =>
         ret (mk_response 409 [content_type]
                (message ("Actor with id " +:+ to_js_string aid +:+ " already exists")))
     | None =>
         t <- now ;;
         let newActor := new_actor (own_props actor) (iso_string t) in
         _ <- gw_put newActor ;;
         ret (mk_response 201 [content_type; allow_origin] (Body_json (JObj newActor)))
     end))
    (fun _ => ret (mk_response 500 [content_type] (message "Failed to create actor"))).

(** [const { id: updateId, createdAt, ...allowedUpdates } = updates] *)
Definition allowed_updates (updates : jsval) : M obj :=
  match updates with
  | JUndef => throw "Cannot destructure 'updates' as it is undefined."
  | JNull => throw "Cannot destructure 'updates' as it is null."
  | _ => ret (List.filter (fun kv => negb (String.eqb kv.1 "id") && negb (String.eqb kv.1 "createdAt"))
                (own_props updates))
  end.

(** [{ ...existingActor.Item, ...allowedUpdates, updatedAt: stamp }] *)
Definition merge_update (stored allowed : obj) (stamp : string) : obj :=
  obj_set (obj_spread (obj_spread [] stored) allowed) "updatedAt" (JStr stamp).

(** [PUT /actors/{id}] *)
Definition update (id : string) (updates : jsval) : M response :=
  try_catch
    (existing <- gw_get (JStr id) ;;
     match existing with
     | None => ret (mk_response 404 [content_type]
                      (message ("Actor with id " +:+ id +:+ " not found")))
     | Some stored =>
         allowed <- allowed_updates updates ;;
         t <- now ;;
         let updatedActor := merge_update stored allowed (iso_string t) in
         _ <- gw_put updatedActor ;;
         ret (mk_response 200 [content_type; allow_origin] (Body_json (JObj updatedActor)))
     end)
    (fun _ => ret (mk_response 500 [content_type] (message "Failed to update actor"))).

(** [DELETE /actors/{id}] *)
Definition delete (id : string) : M response :=
  try_catch
    (existing <- gw_get (JStr id) ;;
     match existing with
     | None => ret (mk_response 404 [content_type]
                      (message ("Actor with id " +:+ id +:+ " not found")))
     | Some _ =>
         _ <- gw_delete (JStr id) ;;
         ret (mk_response 204 [allow_origin] (Body_text ""))
     end)
    (fun _ => ret (mk_response 500 [content_type] (message "Failed to delete actor"))).

Definition id_required : response :=
  mk_response 400 [content_type] (message "Actor ID is required").

(** [handler] *)
Definition handler (cfg : config) (ev : event) : M response :=
  if table_name_unset cfg then
    ret (mk_response 500 [content_type] (message "TABLE_NAME environment variable not set"))
  else
  try_catch
    (let method := httpMethod ev in
     let actorId := nonempty (path_id ev) in
     let key := method +:+ ":" +:+ resource ev in
     if String.eqb key "GET:/actors" then listAll
     else if String.eqb key "GET:/actors/{id}" then
       match actorId with Some id => getById id | None => ret id_required end
     else if String.eqb key "POST:/actors" then
       createData <- json_parse (body_or_empty ev) ;; create createData
     else if String.eqb key "PUT:/actors/{id}" then
       match actorId with
       | Some id => updateData <- json_parse (body_or_empty ev) ;; update id updateData
       | None => ret id_required
       end
     else if String.eqb key "DELETE:/actors/{id}" then
       match actorId with Some id => delete id | None => ret id_required end
     else
       ret (mk_response 400 [content_type]
              (message ("Unsupported operation: " +:+ method +:+ " " +:+ resource ev))))
    (fun _ => ret (mk_response 500 [content_type] (message "Internal server error"))).

End Actors.

(** [/\/tvshows\/[\w-]+/] on the request path: unanchored, so some position
    starts with [/tvshows/] followed by a word character or [-]. *)
Definition word_char (c : ascii) : bool :=
  let n := nat_of_ascii c in
  (Nat.leb 48 n && Nat.leb n 57) || (Nat.leb 65 n && Nat.leb n 90) ||
  (Nat.leb 97 n && Nat.leb n 122) || Nat.eqb n 95 || Nat.eqb n 45.

Fixpoint tvshows_item_match (p : string) : bool :=
  match p with
  | EmptyString => false
  | String _ p' as s =>
      (String.prefix "/tvshows/" s &&
       match String.get 9 s with Some c => word_char c | None => false end)
      || tvshows_item_match p'
  end.

(** ** [cdk/src/lambda-l3/index.ts] *)

Module TVShowsL3.

Definition listAll : M response :=
  items <- gw_scan ;;
  ret (mk_response 200 [] (Body_json (JArr (map JObj items)))).

Definition getById (id : string) : M response :=
  item <- gw_get (JStr id) ;;
  match item with
  | None => ret (mk_response 404 [] (message "TV show not found"))
  | Some it => ret (mk_response 200 [] (Body_json (JObj it)))
  end.

(** The [Item] literal of [create]. *)
Definition new_show (tvShow : obj) (stamp : string) : obj :=
  [("id", obj_get tvShow "id");
   ("title", obj_get tvShow "title");
   ("genre", js_or (obj_get tvShow "genre") (JStr ""));
   ("year", js_or (obj_get tvShow "year") JNull);
   ("rating", js_or (obj_get tvShow "rating") JNull);
   ("createdAt", JStr stamp)].

Definition create (tvShow : jsval) : M response :=
  sid <- get_prop tvShow "id" ;;
  (if negb (truthy sid) then
     ret (mk_response 400 [] (message "ID and title are required"))
   else
  title <- get_prop tvShow "title" ;;
  if negb (truthy title) then
     ret (mk_response 400 [] (message "ID and title are required"))
  else
  t <- now ;;
  _ <- gw_put (new_show (own_props tvShow) (iso_string t)) ;;
  ret (mk_response 201 []
         (Body_json (JObj [("message", JStr "TV show created successfully"); ("id", sid)])))).

Definition deleteById (id : string) : M response :=
  _ <- gw_delete (JStr id) ;;
  ret (mk_response 200 [] (message "TV show deleted successfully")).

Definition id_required : response := mk_response 400 [] (message "ID is required").

Definition handler (cfg : config) (ev : event) : M response :=
  if table_name_unset cfg then
    ret (mk_response 500 [] (message "Table name is not configured"))
  else
  try_catch
    (let method := httpMethod ev in
     let p := path ev in
     if String.eqb method "GET" && String.eqb p "/tvshows" then listAll
     else if String.eqb method "GET" && tvshows_item_match p then
       match nonempty (path_id ev) with Some id => getById id | None => ret id_required end
     else if String.eqb method "POST" && String.eqb p "/tvshows" then
       match ev_body ev with
       | None => ret (mk_response 400 [] (message "Request body is required"))
       | Some b =>
           if String.eqb b "" then ret (mk_response 400 [] (message "Request body is required"))
           else tvShow <- json_parse b ;; create tvShow
       end
     else if String.eqb method "DELETE" && tvshows_item_match p then
       match nonempty (path_id ev) with Some id => deleteById id | None => ret id_required end
     else ret (mk_response 400 [] (message "Unsupported operation")))
    (fun _ => ret (mk_response 500 [] (message "Internal server error"))).

End TVShowsL3.

(** ** [unnamed/part_003]: the TypeScript [TVShowsController] on the v2
    DocumentClient.  The table name is passed to the client unchecked
    ([process.env.TABLE_NAME!]); a missing name is a fault of the calls. *)

Module TVShowsTS.

Definition ct : list (string * string) := [content_type].

Definition listAll : M response :=
  items <- gw_scan ;;
  ret (mk_response 200 ct (Body_json (JArr (map JObj items)))).

Definition getById (id : string) : M response :=
  item <- gw_get (JStr id) ;;
  match item with
  | None => ret (mk_response 404 ct (message "TV Show not found"))
  | Some it => ret (mk_response 200 ct (Body_json (JObj it)))
  end.

(** [newShow] built as [create] builds it: the literal, then six property
    assignments. *)
Definition new_show (show : obj) (t : Z) : obj :=
  let stamp := JStr (iso_string t) in
  let o := [("id", js_or (obj_get show "id") (JStr (pretty t)));
            ("title", js_or (obj_get show "title") (JStr "Untitled Show"))] in
  let o := obj_set o "createdAt" stamp in
  let o := obj_set o "updatedAt" stamp in
  let o := obj_set o "genre" (obj_get show "genre") in
  let o := obj_set o "year" (obj_get show "year") in
  let o := obj_set o "seasons" (obj_get show "seasons") in
  obj_set o "rating" (obj_get show "rating").

Definition create (show : jsval) : M response :=
  _ <- get_prop show "id" ;;
  t <- now ;;
  match show with
  | JObj o =>
      let newShow := new_show o t in
      _ <- gw_put newShow ;;
      ret (mk_response 201 ct (Body_json (JObj newShow)))
  | _ =>
      (* the literal reads only [id] and [title] of a primitive or array:
         both undefined *)
      let newShow := new_show [] t in
      _ <- gw_put newShow ;;
      ret (mk_response 201 ct (Body_json (JObj newShow)))
  end.

(** [show.id = id; show.createdAt = ...; show.updatedAt = ...] on the parsed
    payload; assigning to a property of a primitive throws in strict mode, and
    an array is not a valid [Item]. *)
Definition stamp_show (show : jsval) (id : string) (createdAt : jsval) (t : Z) : M obj :=
  match show with
  | JObj o =>
      ret (obj_set (obj_set (obj_set o "id" (JStr id)) "createdAt" createdAt)
             "updatedAt" (JStr (iso_string t)))
  | JUndef => throw "Cannot set properties of undefined (setting 'id')"
  | JNull => throw "Cannot set properties of null (setting 'id')"
  | _ => throw "Cannot create property 'id' on a non-object"
  end.

Definition update (id : string) (show : jsval) : M response :=
  existing <- gw_get (JStr id) ;;
  match existing with
  | None => ret (mk_response 404 ct (message "TV Show not found"))
  | Some stored =>
      t <- now ;;
      item <- stamp_show show id (obj_get stored "createdAt") t ;;
      _ <- gw_put item ;;
      ret (mk_response 200 ct (Body_json (JObj item)))
  end.

Definition delete (id : string) : M response :=
  existing <- gw_get (JStr id) ;;
  match existing with
  | None => ret (mk_response 404 ct (message "TV Show not found"))
  | Some _ =>
      _ <- gw_delete (JStr id) ;;
      ret (mk_response 204 ct (Body_text ""))
  end.

(** The [switch] inside the [try] of [handler]; [!!event.pathParameters?.id]. *)
Definition route (ev : event) : M response :=
  let method := httpMethod ev in
  let p := path ev in
  let has_id := if nonempty (path_id ev) then true else false in
  let id := default "" (path_id ev) in
  if String.eqb method "GET" && String.eqb p "/tvshows" then listAll
  else if String.eqb method "GET" && has_id then getById id
  else if String.eqb method "POST" && String.eqb p "/tvshows" then
    createData <- json_parse (body_or_empty ev) ;; create createData
  else if String.eqb method "PUT" && has_id then
    updateData <- json_parse (body_or_empty ev) ;; update id updateData
  else if String.eqb method "DELETE" && has_id then delete id
  else ret (mk_response 400 ct (message "Invalid request")).

Definition handler (ev : event) : M response :=
  try_catch (route ev)
    (fun e => ret (mk_response 500 ct
                     (Body_json (JObj [("message", JStr "Internal server error");
                                       ("error", JStr e)])))).

End TVShowsTS.

(** ** [cdk/src/lambda-l3/index.ts], second [handler]: the L1 version, with
    the DynamoDB calls inline.  [TABLE_NAME] is passed to the client
    unchecked ([tableName!]); a missing name is a fault of the calls. *)

Module TVShowsL1.

Definition handler (ev : event) : M response :=
  try_catch
    (let method := httpMethod ev in
     let p := path ev in
     if String.eqb method "GET" && String.eqb p "/tvshows" then
       data <- gw_scan ;;
       ret (mk_response 200 [] (Body_json (JArr (map JObj data))))
     else if String.eqb method "GET" && tvshows_item_match p then
       match nonempty (path_id ev) with
       | None => ret (mk_response 400 [] (message "ID is required"))
       | Some id =>
           data <- gw_get (JStr id) ;;
           match data with
           | None => ret (mk_response 404 [] (message "TV show not found"))
           | Some it => ret (mk_response 200 [] (Body_json (JObj it)))
           end
       end
     else if String.eqb method "POST" && String.eqb p "/tvshows" then
       match ev_body ev with
       | None => ret (mk_response 400 [] (message "Request body is required"))
       | Some b =>
           if String.eqb b "" then ret (mk_response 400 [] (message "Request body is required"))
           else
           tvShow <- json_parse b ;;
           sid <- get_prop tvShow "id" ;;
           (if negb (truthy sid) then
              ret (mk_response 400 [] (message "ID and title are required"))
            else
           title <- get_prop tvShow "title" ;;
           if negb (truthy title) then
              ret (mk_response 400 [] (message "ID and title are required"))
           else
           t <- now ;;
           (* the [Item] literal is the one of the L3 [create] *)
           _ <- gw_put (TVShowsL3.new_show (own_props tvShow) (iso_string t)) ;;
           ret (mk_response 201 []
                  (Body_json (JObj [("message", JStr "TV show created successfully"); ("id", sid)]))))
       end
     else if String.eqb method "DELETE" && tvshows_item_match p then
       match nonempty (path_id ev) with
       | None => ret (mk_response 400 [] (message "ID is required"))
       | Some id =>
           _ <- gw_delete (JStr id) ;;
           ret (mk_response 200 [] (message "TV show deleted successfully"))
       end
     else ret (mk_response 400 [] (message "Unsupported operation")))
    (fun _ => ret (mk_response 500 [] (message "Internal server error"))).

End TVShowsL1.

(** ** [unnamed/part_003], second [handler]: the L2 version, with one
    function per operation.  [TABLE_NAME] is passed unchecked. *)

Module TVShowsL2.

Definition listTVShows : M response :=
  data <- gw_scan ;;
  ret (mk_response 200 [] (Body_json (JArr (map JObj data)))).

(** [Key: { id }] with [id] the value of [event.pathParameters?.id!]. *)
Definition getTVShow (id : jsval) : M response :=
  data <- gw_get id ;;
  match data with
  | None => ret (mk_response 404 [] (message "TV show not found"))
  | Some it => ret (mk_response 200 [] (Body_json (JObj it)))
  end.

Definition createTVShow (b : option string) : M response :=
  match b with
  | None => ret (mk_response 400 [] (message "Request body is required"))
  | Some s =>
      if String.eqb s "" then ret (mk_response 400 [] (message "Request body is required"))
      else
      tvShow <- json_parse s ;;
      sid <- get_prop tvShow "id" ;;
      (if negb (truthy sid) then
         ret (mk_response 400 [] (message "ID and title are required"))
       else
      title <- get_prop tvShow "title" ;;
      if negb (truthy title) then
         ret (mk_response 400 [] (message "ID and title are required"))
      else
      t <- now ;;
      (* the [Item] literal is the one of the L3 [create] *)
      _ <- gw_put (TVShowsL3.new_show (own_props tvShow) (iso_string t)) ;;
      ret (mk_response 201 []
             (Body_json (JObj [("message", JStr "TV show created successfully"); ("id", sid)]))))
  end.

Definition deleteTVShow (id : jsval) : M response :=
  _ <- gw_delete id ;;
  ret (mk_response 200 [] (message "TV show deleted successfully")).

(** [event.pathParameters?.id!]: [undefined] when there is no [id]. *)
Definition path_id_value (ev : event) : jsval :=
  match path_id ev with Some s => JStr s | None => JUndef end.

Definition handler (ev : event) : M response :=
  try_catch
    (let method := httpMethod ev in
     let p := path ev in
     if String.eqb method "GET" && String.eqb p "/tvshows" then listTVShows
     else if String.eqb method "GET" && tvshows_item_match p then getTVShow (path_id_value ev)
     else if String.eqb method "POST" && String.eqb p "/tvshows" then createTVShow (ev_body ev)
     else if String.eqb method "DELETE" && tvshows_item_match p then deleteTVShow (path_id_value ev)
     else ret (mk_response 400 [] (message "Unsupported operation")))
    (fun _ => ret (mk_response 500 [] (message "Internal server error"))).

End TVShowsL2.

(** ** Predicates used in the statements *)

(** The headers the Actors handler attaches, as a function of the status. *)
Definition actors_headers (status : Z) : list (string * string) :=
  if (status =? 200) || (status =? 201) then [content_type; allow_origin]
  else if status =? 204 then [allow_origin]
  else [content_type].

(** The messages of the Actors handler's 500 responses. *)
Definition actors_500_messages : list string :=
  ["Failed to retrieve actors"; "Failed to retrieve actor"; "Failed to create actor";
   "Failed to update actor"; "Failed to delete actor";
   "TABLE_NAME environment variable not set"; "Internal server error"].

(** The five routes of the Actors handler as (method, resource) pairs. *)
Definition actors_routes : list (string * string) :=
  [("GET", "/actors"); ("GET", "/actors/{id}"); ("POST", "/actors");
   ("PUT", "/actors/{id}"); ("DELETE", "/actors/{id}")].

(** Whether a request takes one of the four branches of the L3 handler. *)
Definition l3_routed (ev : event) : bool :=
  let method := httpMethod ev in
  let p := path ev in
  (String.eqb method "GET" && String.eqb p "/tvshows") ||
  (String.eqb method "GET" && tvshows_item_match p) ||
  (String.eqb method "POST" && String.eqb p "/tvshows") ||
  (String.eqb method "DELETE" && tvshows_item_match p).

(** The schema of an [Actor] as [create] writes it. *)
Definition actor_schema : list string :=
  ["id"; "name"; "age"; "nationality"; "knownFor"; "isActive"; "createdAt"; "updatedAt"].

(** One property of a [Partial<Actor>] payload, with the type the [Actor]
    interface declares for it. *)
Definition actor_field (kv : string * jsval) : Prop :=
  ((kv.1 = "id" \/ kv.1 = "name" \/ kv.1 = "nationality") /\ exists s, kv.2 = JStr s) \/
  (kv.1 = "age" /\ exists m e, kv.2 = JNum m e) \/
  (kv.1 = "knownFor" /\ exists l, kv.2 = JArr l) \/
  (kv.1 = "isActive" /\ exists b, kv.2 = JBool b).

(** A valid create payload: a non-empty string [id] and [name], and every
    property one of the caller-supplied fields of [Actor] with its type. *)
Definition actor_payload (p : obj) : Prop :=
  (exists i, obj_lookup p "id" = Some (JStr i) /\ i <> "") /\
  (exists n, obj_lookup p "name" = Some (JStr n) /\ n <> "") /\
  Forall actor_field p.

(** An item as [create] builds it from the properties [src] of the payload:
    exactly the schema's properties, the payload's values for [id], [name],
    [age] and [nationality], the two defaults, and equal timestamps. *)
Definition actor_item (src it : obj) : Prop :=
  map fst it = actor_schema /\
  (forall k, ~ In k actor_schema -> obj_lookup it k = None) /\
  (forall k, In k ["id"; "name"; "age"; "nationality"] -> obj_lookup it k = Some (obj_get src k)) /\
  obj_lookup it "knownFor" = Some (js_or (obj_get src "knownFor") (JArr [])) /\
  obj_lookup it "isActive" = Some (js_nullish (obj_get src "isActive") (JBool true)) /\
  obj_lookup it "createdAt" = obj_lookup it "updatedAt".

(** The properties [allowed_updates] keeps of an object payload. *)
Definition actors_allowed (p : obj) : obj :=
  List.filter (fun kv => negb (String.eqb kv.1 "id") && negb (String.eqb kv.1 "createdAt")) p.

(** The table holds every item under its own [id], with distinct property
    names. *)
Definition table_wf (t : gmap string obj) : Prop :=
  forall k o, t !! k = Some o -> obj_lookup o "id" = Some (JStr k) /\ NoDup (map fst o).

(** ** Concrete runs *)

(** A DynamoDB that never faults and answers every call in 1 ms. *)
Definition ok_env : env := mk_env (fun _ => None) (fun _ => 1%N).

(** A DynamoDB that refuses scans. *)
Definition scan_denied_msg : string :=
  "User is not authorized to perform: dynamodb:Scan on resource: TVShows".
Definition scan_denied_env : env :=
  mk_env (fun c => match c with GScan => Some scan_denied_msg | _ => None end) (fun _ => 1%N).

(** An empty table at 2023-01-01T00:00:00.000Z. *)
Definition w0 : world := mk_world ∅ 1672531200000 [].

Definition cfg_set : config := mk_config (Some "TVActors").

(** An actor stored at 2023-01-01. *)
Definition actor_a1 : obj :=
  [("id", JStr "a1"); ("name", JStr "X"); ("createdAt", JStr "2023-01-01T00:00:00.000Z");
   ("updatedAt", JStr "2023-01-01T00:00:00.000Z")].

Definition w_a1 : world := mk_world {[ "a1" := actor_a1 ]} 1672531200000 [].

(** A show stored at 2023-01-01. *)
Definition show_s1 : obj :=
  [("id", JStr "s1"); ("title", JStr "X"); ("genre", JStr "Drama");
   ("createdAt", JStr "2023-01-01T00:00:00.000Z")].

Definition w_s1 : world := mk_world {[ "s1" := show_s1 ]} 1672531200000 [].

Definition fault_body_ok (r : response) : Prop :=
  statusCode r = 500 -> exists m, In m actors_500_messages /\ body r = message m.

Definition ts_fault_body (r : response) : Prop :=
  statusCode r = 500 ->
  exists e, body r = Body_json (JObj [("message", JStr "Internal server error"); ("error", JStr e)]).

Definition hdr_ok (r : response) : Prop := headers r = actors_headers (statusCode r).

(** [m] changes no property [P] of the table: every call preserves it. *)
Definition keeps (P : gmap string obj -> Prop) {A} (m : M A) : Prop :=
  forall E w, P (table w) -> P (table (snd (m E w))).

(** An answer with an error status, or an exception, leaves the table as it
    was. *)
Definition err_no_write (m : M response) : Prop :=
  forall E w,
    match m E w with
    | (Ok r, w') => 400 <= statusCode r -> table w' = table w
    | (Throw _, w') => table w' = table w
    end.

(** ** Reasoning about [M] *)

Section Reasoning.

Context {A : Type}.

(** [m] never resolves to a value outside [P]. *)
Definition safe (P : A -> Prop) (m : M A) : Prop :=
  forall E w, match fst (m E w) with Ok a => P a | Throw _ => True end.

(** [m] always resolves, to a value in [P]. *)
Definition always (P : A -> Prop) (m : M A) : Prop :=
  forall E w, exists a, fst (m E w) = Ok a /\ P a.

Lemma safe_ret (P : A -> Prop) a : P a -> safe P (ret a).
Proof. intros H E w. exact H. Qed.

Lemma safe_throw (P : A -> Prop) e : safe P (throw e).
Proof. intros E w. exact I. Qed.

Lemma safe_bind {B} (P : A -> Prop) (m : M B) (k : B -> M A) :
  (forall b, safe P (k b)) -> safe P (bind m k).
Proof.
  intros Hk E w. unfold bind. destruct (m E w) as [[b|e] w']; [apply Hk|exact I].
Qed.

Lemma always_ret (P : A -> Prop) a : P a -> always P (ret a).
Proof. intros H E w. exists a. split; [reflexivity|exact H]. Qed.

Lemma always_safe (P : A -> Prop) m : always P m -> safe P m.
Proof. intros H E w. destruct (H E w) as (a & -> & Ha). exact Ha. Qed.

Lemma always_try (P : A -> Prop) m h :
  safe P m -> (forall e, always P (h e)) -> always P (try_catch m h).
Proof.
  intros Hm Hh E w. unfold try_catch. specialize (Hm E w).
  destruct (m E w) as [[a|e] w']; simpl in *.
  - exists a. split; [reflexivity|exact Hm].
  - apply Hh.
Qed.

End Reasoning.

Create HintDb monad.
#[export] Hint Resolve safe_ret safe_throw always_ret always_safe : monad.

(** Split a computation of a handler into its branches. *)
Ltac walk :=
  repeat match goal with
  | |- safe _ (bind _ _) => apply safe_bind; intro
  | |- always _ (try_catch _ _) => apply always_try; [|intro]
  | |- safe _ (json_parse _) => unfold json_parse
  | |- safe _ (ret _) => apply safe_ret
  | |- safe _ (throw _) => apply safe_throw
  | |- always _ (ret _) => apply always_ret
  | |- _ => progress (cbv zeta)
  | |- _ => case_match
  end.

Lemma actors_listAll_hdr : always hdr_ok Actors.listAll.
Proof. unfold Actors.listAll. walk; reflexivity. Qed.
Lemma actors_getById_hdr id : always hdr_ok (Actors.getById id).
Proof. unfold Actors.getById. walk; reflexivity. Qed.
Lemma actors_create_hdr a : always hdr_ok (Actors.create a).
Proof. unfold Actors.create. walk; try reflexivity. Qed.
Lemma actors_update_hdr id u : always hdr_ok (Actors.update id u).
Proof. unfold Actors.update, Actors.allowed_updates. walk; reflexivity. Qed.
Lemma actors_delete_hdr id : always hdr_ok (Actors.delete id).
Proof. unfold Actors.delete. walk; reflexivity. Qed.
Lemma actors_handler_hdr cfg ev : always hdr_ok (Actors.handler cfg ev).
Proof.
  unfold Actors.handler. walk; try reflexivity;
  auto using always_safe, actors_listAll_hdr, actors_getById_hdr, actors_create_hdr,
    actors_update_hdr, actors_delete_hdr.
Qed.

Lemma l3_handler_no_headers cfg ev : always (fun r => headers r = []) (TVShowsL3.handler cfg ev).
Proof.
  unfold TVShowsL3.handler, TVShowsL3.listAll, TVShowsL3.getById, TVShowsL3.create,
    TVShowsL3.deleteById, TVShowsL3.id_required.
  walk; reflexivity.
Qed.

(** *** Server faults *)

Ltac fault_body := intros Hs; simpl in Hs;
  first [discriminate | eexists; split; [|reflexivity]; simpl; tauto].

Lemma actors_listAll_fault : always fault_body_ok Actors.listAll.
Proof. unfold Actors.listAll. walk; fault_body. Qed.
Lemma actors_getById_fault id : always fault_body_ok (Actors.getById id).
Proof. unfold Actors.getById. walk; fault_body. Qed.
Lemma actors_create_fault a : always fault_body_ok (Actors.create a).
Proof. unfold Actors.create. walk; fault_body. Qed.
Lemma actors_update_fault id u : always fault_body_ok (Actors.update id u).
Proof. unfold Actors.update, Actors.allowed_updates. walk; fault_body. Qed.
Lemma actors_delete_fault id : always fault_body_ok (Actors.delete id).
Proof. unfold Actors.delete. walk; fault_body. Qed.

Lemma actors_handler_fault cfg ev : always fault_body_ok (Actors.handler cfg ev).
Proof.
  unfold Actors.handler, Actors.id_required. walk; try fault_body;
  auto using always_safe, actors_listAll_fault, actors_getById_fault, actors_create_fault,
    actors_update_fault, actors_delete_fault.
Qed.

Lemma ts_handler_fault ev : always ts_fault_body (TVShowsTS.handler ev).
Proof.
  unfold TVShowsTS.handler, TVShowsTS.route, TVShowsTS.listAll, TVShowsTS.getById, TVShowsTS.create,
    TVShowsTS.update, TVShowsTS.stamp_show, TVShowsTS.delete.
  walk; intros Hs; simpl in Hs; first [discriminate | eexists; reflexivity].
Qed.

(** *** Property lookup *)

Lemma obj_lookup_app (o1 o2 : obj) k :
  obj_lookup (o1 ++ o2) k =
  match obj_lookup o1 k with Some v => Some v | None => obj_lookup o2 k end.
Proof.
  induction o1 as [|[k0 v0] o1 IH]; simpl; [reflexivity|].
  destruct (String.eqb k0 k); [reflexivity|exact IH].
Qed.

Lemma obj_lookup_set (o : obj) k v k' :
  obj_lookup (obj_set o k v) k' = if String.eqb k k' then Some v else obj_lookup o k'.
Proof.
  induction o as [|[k0 v0] o IH]; simpl.
  - destruct (String.eqb k k'); reflexivity.
  - destruct (String.eqb_spec k0 k) as [->|Hne]; simpl.
    + destruct (String.eqb k k'); reflexivity.
    + rewrite IH. destruct (String.eqb_spec k0 k') as [->|]; [|reflexivity].
      destruct (String.eqb_spec k k'); [congruence|reflexivity].
Qed.

Lemma obj_lookup_spread (acc src : obj) k :
  obj_lookup (obj_spread acc src) k =
  match obj_lookup (rev src) k with Some v => Some v | None => obj_lookup acc k end.
Proof.
  unfold obj_spread. revert acc.
  induction src as [|[k0 v0] src IH]; intros acc; simpl; [reflexivity|].
  rewrite IH, obj_lookup_app, obj_lookup_set. simpl.
  destruct (obj_lookup (rev src) k); [reflexivity|].
  destruct (String.eqb k0 k); reflexivity.
Qed.

Lemma obj_lookup_none (o : obj) k : k ∉ map fst o -> obj_lookup o k = None.
Proof.
  induction o as [|[k0 v0] o IH]; simpl; intros Hn; [reflexivity|].
  destruct (String.eqb_spec k0 k) as [->|]; [set_solver|].
  apply IH. set_solver.
Qed.

Lemma obj_lookup_rev (o : obj) k : NoDup (map fst o) -> obj_lookup (rev o) k = obj_lookup o k.
Proof.
  induction o as [|[k0 v0] o IH]; simpl; intros Hnd; [reflexivity|].
  apply NoDup_cons in Hnd as [Hn Hnd].
  rewrite obj_lookup_app, IH by exact Hnd. simpl.
  destruct (String.eqb_spec k0 k) as [->|].
  - rewrite obj_lookup_none by exact Hn. reflexivity.
  - destruct (obj_lookup o k); reflexivity.
Qed.

Lemma obj_lookup_filter (g : string -> bool) (o : obj) k :
  obj_lookup (List.filter (fun kv => g kv.1) o) k = if g k then obj_lookup o k else None.
Proof.
  induction o as [|[k0 v0] o IH]; simpl.
  - destruct (g k); reflexivity.
  - destruct (g k0) eqn:Hg; simpl; rewrite IH.
    + destruct (String.eqb_spec k0 k) as [->|]; [rewrite Hg|]; reflexivity.
    + destruct (String.eqb_spec k0 k) as [->|]; [rewrite Hg|]; reflexivity.
Qed.

Lemma obj_get_lookup (o : obj) k v : obj_lookup o k = Some v -> obj_get o k = v.
Proof. unfold obj_get. intros ->. reflexivity. Qed.

(** *** Runs of the controllers on a healthy DynamoDB *)

Ltac run_step := cbv beta iota zeta delta [negb andb orb bind ret try_catch throw send now
  get_prop gw_get gw_put gw_delete gw_scan table clock trace].

Lemma obj_lookup_rev_filter (g : string -> bool) (o : obj) k :
  obj_lookup (rev (List.filter (fun kv => g kv.1) o)) k = if g k then obj_lookup (rev o) k else None.
Proof.
  induction o as [|[k0 v0] o IH]; simpl.
  - destruct (g k); reflexivity.
  - rewrite obj_lookup_app. destruct (g k0) eqn:Hg; simpl; rewrite ?obj_lookup_app, IH; simpl.
    + destruct (g k) eqn:Hk; [reflexivity|].
      destruct (String.eqb_spec k0 k) as [->|]; congruence.
    + destruct (g k) eqn:Hk; [|reflexivity].
      destruct (obj_lookup (rev o) k); [reflexivity|].
      destruct (String.eqb_spec k0 k) as [->|]; congruence.
Qed.

Lemma actors_new_actor_id a st : obj_lookup (Actors.new_actor a st) "id" = Some (obj_get a "id").
Proof. reflexivity. Qed.

Lemma actors_create_fresh (E : env) (w : world) (p : obj) (i : string) :
  healthy E -> obj_lookup p "id" = Some (JStr i) -> i <> "" ->
  truthy (obj_get p "name") = true -> table w !! i = None ->
  let t := clock w + Z.of_N (latency E (GGet (JStr i))) in
  let item := Actors.new_actor p (iso_string t) in
  Actors.create (JObj p) E w =
    (Ok (mk_response 201 [content_type; allow_origin] (Body_json (JObj item))),
     mk_world (<[i := item]> (table w)) (t + Z.of_N (latency E (GPut item)))
       ((trace w ++ [GGet (JStr i)]) ++ [GPut item])).
Proof.
  destruct w as [tb ck tr]. simpl. intros HE Hid Hi Hname Hfresh.
  assert (Htr : truthy (JStr i) = true).
  { simpl. destruct (String.eqb_spec i ""); [congruence|reflexivity]. }
  unfold Actors.create. run_step.
  rewrite (obj_get_lookup _ _ _ Hid), Htr, Hname. run_step.
  rewrite HE. run_step. rewrite Hfresh. run_step.
  rewrite HE. run_step. rewrite actors_new_actor_id. simpl own_props.
  rewrite (obj_get_lookup _ _ _ Hid). reflexivity.
Qed.

Lemma actors_create_existing (E : env) (w : world) (p : obj) (i : string) (o : obj) :
  healthy E -> obj_lookup p "id" = Some (JStr i) -> i <> "" ->
  truthy (obj_get p "name") = true -> table w !! i = Some o ->
  Actors.create (JObj p) E w =
    (Ok (mk_response 409 [content_type] (message ("Actor with id " +:+ i +:+ " already exists"))),
     mk_world (table w) (clock w + Z.of_N (latency E (GGet (JStr i)))) (trace w ++ [GGet (JStr i)])).
Proof.
  destruct w as [tb ck tr]. simpl. intros HE Hid Hi Hname Hex.
  assert (Htr : truthy (JStr i) = true).
  { simpl. destruct (String.eqb_spec i ""); [congruence|reflexivity]. }
  unfold Actors.create. run_step.
  rewrite (obj_get_lookup _ _ _ Hid), Htr, Hname. run_step.
  rewrite HE. run_step. rewrite Hex. reflexivity.
Qed.

Lemma actors_getById_run (E : env) (w : world) (i : string) :
  healthy E ->
  Actors.getById i E w =
    (Ok (match table w !! i with
         | None => mk_response 404 [content_type] (message ("Actor with id " +:+ i +:+ " not found"))
         | Some it => mk_response 200 [content_type; allow_origin] (Body_json (JObj it))
         end),
     mk_world (table w) (clock w + Z.of_N (latency E (GGet (JStr i)))) (trace w ++ [GGet (JStr i)])).
Proof.
  destruct w as [tb ck tr]. simpl. intros HE.
  unfold Actors.getById. run_step. rewrite HE. run_step.
  destruct (tb !! i); reflexivity.
Qed.

Lemma actors_update_absent (E : env) (w : world) (i : string) (u : jsval) :
  healthy E -> table w !! i = None ->
  Actors.update i u E w =
    (Ok (mk_response 404 [content_type] (message ("Actor with id " +:+ i +:+ " not found"))),
     mk_world (table w) (clock w + Z.of_N (latency E (GGet (JStr i)))) (trace w ++ [GGet (JStr i)])).
Proof.
  destruct w as [tb ck tr]. simpl. intros HE Hn.
  unfold Actors.update. run_step. rewrite HE. run_step. rewrite Hn. reflexivity.
Qed.

Lemma actors_delete_absent (E : env) (w : world) (i : string) :
  healthy E -> table w !! i = None ->
  Actors.delete i E w =
    (Ok (mk_response 404 [content_type] (message ("Actor with id " +:+ i +:+ " not found"))),
     mk_world (table w) (clock w + Z.of_N (latency E (GGet (JStr i)))) (trace w ++ [GGet (JStr i)])).
Proof.
  destruct w as [tb ck tr]. simpl. intros HE Hn.
  unfold Actors.delete. run_step. rewrite HE. run_step. rewrite Hn. reflexivity.
Qed.

Lemma actors_delete_present (E : env) (w : world) (i : string) (o : obj) :
  healthy E -> table w !! i = Some o ->
  Actors.delete i E w =
    (Ok (mk_response 204 [allow_origin] (Body_text "")),
     mk_world (delete i (table w))
       (clock w + Z.of_N (latency E (GGet (JStr i))) + Z.of_N (latency E (GDelete (JStr i))))
       ((trace w ++ [GGet (JStr i)]) ++ [GDelete (JStr i)])).
Proof.
  destruct w as [tb ck tr]. simpl. intros HE Hs.
  unfold Actors.delete. run_step. rewrite HE. run_step. rewrite Hs. run_step.
  rewrite HE. reflexivity.
Qed.

Lemma actors_merge_lookup (s p : obj) st k :
  obj_lookup (Actors.merge_update s (actors_allowed p) st) k =
  if String.eqb k "updatedAt" then Some (JStr st)
  else if String.eqb k "id" || String.eqb k "createdAt" then obj_lookup (rev s) k
  else match obj_lookup (rev p) k with Some v => Some v | None => obj_lookup (rev s) k end.
Proof.
  unfold Actors.merge_update, actors_allowed.
  rewrite obj_lookup_set, !obj_lookup_spread.
  rewrite (obj_lookup_rev_filter (fun k => negb (String.eqb k "id") && negb (String.eqb k "createdAt"))).
  destruct (String.eqb_spec "updatedAt" k) as [<-|Hu]; [reflexivity|].
  destruct (String.eqb_spec k "updatedAt"); [congruence|].
  destruct (String.eqb k "id"), (String.eqb k "createdAt"); cbn [negb andb orb];
    [..|destruct (obj_lookup (rev p) k)]; destruct (obj_lookup (rev s) k); reflexivity.
Qed.

Lemma actors_update_present (E : env) (w : world) (i : string) (s p : obj) :
  healthy E -> table w !! i = Some s -> obj_lookup s "id" = Some (JStr i) -> NoDup (map fst s) ->
  let t := clock w + Z.of_N (latency E (GGet (JStr i))) in
  let m := Actors.merge_update s (actors_allowed p) (iso_string t) in
  Actors.update i (JObj p) E w =
    (Ok (mk_response 200 [content_type; allow_origin] (Body_json (JObj m))),
     mk_world (<[i := m]> (table w)) (t + Z.of_N (latency E (GPut m)))
       ((trace w ++ [GGet (JStr i)]) ++ [GPut m])).
Proof.
  destruct w as [tb ck tr]. simpl. intros HE Hs Hid Hnd.
  unfold Actors.update. run_step. rewrite HE. run_step. rewrite Hs. run_step.
  unfold Actors.allowed_updates. run_step. rewrite HE. run_step.
  fold (actors_allowed p). rewrite actors_merge_lookup.
  cbv [String.eqb orb Ascii.eqb Bool.eqb]. rewrite obj_lookup_rev by exact Hnd.
  rewrite Hid. reflexivity.
Qed.

Lemma actors_create_puts (a : jsval) (E : env) (w : world) :
  let (r, w') := Actors.create a E w in
  (exists sfx, trace w' = trace w ++ sfx /\
     forall it, In (GPut it) sfx -> exists st, it = Actors.new_actor (own_props a) st) /\
  (forall resp, r = Ok resp -> statusCode resp = 201 ->
     exists st, body resp = Body_json (JObj (Actors.new_actor (own_props a) st))).
Proof.
  destruct w as [tb ck tr]. unfold Actors.create. run_step.
  destruct a as [| | | | | |o]; run_step;
  repeat (match goal with
  | |- context [match fault ?E ?c with _ => _ end] => destruct (fault E c)
  | |- context [if truthy ?v then _ else _] => destruct (truthy v)
  | |- context [match obj_get ?o ?k with _ => _ end] => destruct (obj_get o k)
  | |- context [match ?t !! ?k with _ => _ end] => destruct (t !! k)
  | |- context [match obj_lookup ?o ?k with _ => _ end] => destruct (obj_lookup o k) as [[| | | | | |]|]
  end; run_step).
  all: simpl; split;
    [eexists; split;
       [rewrite <- ?app_assoc; first [reflexivity | symmetry; apply app_nil_r]
       |intros it Hin; simpl in Hin; decompose [or] Hin; try discriminate; try contradiction;
        match goal with H : GPut _ = GPut _ |- _ => injection H as <-; eauto end]
    |intros resp Hr Hs; injection Hr as <-; simpl in Hs; try discriminate; eauto].
Qed.

Lemma obj_lookup_in (o : obj) k v : obj_lookup o k = Some v -> In (k, v) o.
Proof.
  induction o as [|[k0 v0] o IH]; simpl; [discriminate|].
  destruct (String.eqb_spec k0 k) as [->|]; [intros [= ->]; left; reflexivity|].
  intros H. right. exact (IH H).
Qed.

Lemma actors_new_actor_item (src : obj) st : actor_item src (Actors.new_actor src st).
Proof.
  split; [reflexivity|]. split.
  { intros k Hk. apply obj_lookup_none. rewrite list_elem_of_In. exact Hk. }
  split; [|repeat split].
  intros k Hk. repeat (destruct Hk as [<-|Hk]; [reflexivity|]). contradiction.
Qed.

(** A well-typed payload property is stored by [create] unchanged. *)
Lemma actors_new_actor_keeps (p : obj) st k v :
  Forall actor_field p -> obj_lookup p k = Some v ->
  obj_lookup (Actors.new_actor p st) k = Some v.
Proof.
  intros Hf Hl. pose proof (obj_lookup_in _ _ _ Hl) as Hin.
  rewrite List.Forall_forall in Hf. specialize (Hf _ Hin). unfold actor_field in Hf. simpl in Hf.
  destruct Hf as [[[->|[->| ->]] [s' ->]] | [[-> [m [e ->]]] | [[-> [l ->]] | [-> [b ->]]]]];
    cbn; unfold obj_get; rewrite Hl; reflexivity.
Qed.

(** *** Runs of the TVShows controllers on a healthy DynamoDB *)

Lemma l3_create_run (E : env) (w : world) (p : obj) (i : string) :
  healthy E -> obj_lookup p "id" = Some (JStr i) -> i <> "" ->
  truthy (obj_get p "title") = true ->
  TVShowsL3.create (JObj p) E w =
    (Ok (mk_response 201 []
           (Body_json (JObj [("message", JStr "TV show created successfully"); ("id", JStr i)]))),
     mk_world (<[i := TVShowsL3.new_show p (iso_string (clock w))]> (table w))
       (clock w + Z.of_N (latency E (GPut (TVShowsL3.new_show p (iso_string (clock w))))))
       (trace w ++ [GPut (TVShowsL3.new_show p (iso_string (clock w)))])).
Proof.
  destruct w as [tb ck tr]. simpl. intros HE Hid Hi Ht.
  assert (Htr : truthy (JStr i) = true).
  { simpl. destruct (String.eqb_spec i ""); [congruence|reflexivity]. }
  unfold TVShowsL3.create. run_step.
  rewrite (obj_get_lookup _ _ _ Hid), Htr, Ht. run_step.
  rewrite HE. simpl own_props. cbn [TVShowsL3.new_show obj_lookup String.eqb Ascii.eqb Bool.eqb].
  rewrite (obj_get_lookup _ _ _ Hid). reflexivity.
Qed.

Lemma l3_getById_run (E : env) (w : world) (i : string) :
  healthy E ->
  TVShowsL3.getById i E w =
    (Ok (match table w !! i with
         | None => mk_response 404 [] (message "TV show not found")
         | Some it => mk_response 200 [] (Body_json (JObj it))
         end),
     mk_world (table w) (clock w + Z.of_N (latency E (GGet (JStr i)))) (trace w ++ [GGet (JStr i)])).
Proof.
  destruct w as [tb ck tr]. simpl. intros HE.
  unfold TVShowsL3.getById. run_step. rewrite HE. run_step.
  destruct (tb !! i); reflexivity.
Qed.

Lemma l3_deleteById_run (E : env) (w : world) (i : string) :
  healthy E ->
  TVShowsL3.deleteById i E w =
    (Ok (mk_response 200 [] (message "TV show deleted successfully")),
     mk_world (delete i (table w)) (clock w + Z.of_N (latency E (GDelete (JStr i))))
       (trace w ++ [GDelete (JStr i)])).
Proof.
  destruct w as [tb ck tr]. simpl. intros HE.
  unfold TVShowsL3.deleteById. run_step. rewrite HE. reflexivity.
Qed.

(** The item the part_003 [update] writes: the payload with [id],
    [createdAt] and [updatedAt] assigned. *)
Lemma ts_update_present (E : env) (w : world) (i : string) (s q : obj) :
  healthy E -> table w !! i = Some s ->
  let t := clock w + Z.of_N (latency E (GGet (JStr i))) in
  let m := obj_set (obj_set (obj_set q "id" (JStr i)) "createdAt" (obj_get s "createdAt"))
             "updatedAt" (JStr (iso_string t)) in
  TVShowsTS.update i (JObj q) E w =
    (Ok (mk_response 200 TVShowsTS.ct (Body_json (JObj m))),
     mk_world (<[i := m]> (table w)) (t + Z.of_N (latency E (GPut m)))
       ((trace w ++ [GGet (JStr i)]) ++ [GPut m])).
Proof.
  destruct w as [tb ck tr]. simpl. intros HE Hs.
  unfold TVShowsTS.update, TVShowsTS.stamp_show. run_step. rewrite HE. run_step.
  rewrite Hs. run_step. rewrite HE. rewrite !obj_lookup_set. reflexivity.
Qed.

Lemma ts_route_never_500 ev : safe (fun r => statusCode r <> 500) (TVShowsTS.route ev).
Proof.
  unfold TVShowsTS.route, TVShowsTS.listAll, TVShowsTS.getById, TVShowsTS.create,
    TVShowsTS.update, TVShowsTS.stamp_show, TVShowsTS.delete.
  walk; cbn [statusCode]; discriminate.
Qed.

(** *** Route keys *)

Lemma append_String c s t : String c s +:+ t = String c (s +:+ t).
Proof. reflexivity. Qed.

Lemma append_Empty t : EmptyString +:+ t = t.
Proof. reflexivity. Qed.

Lemma colon_in_key (m r : string) :
  In ":"%char (String.list_ascii_of_string (m +:+ ":" +:+ r)).
Proof.
  induction m as [|c m IH]; [left; reflexivity|].
  rewrite append_String. right. exact IH.
Qed.

(** [`${method}:${resource}`] determines the pair when the expected method
    and resource have no colon. *)
Lemma route_key_inj (m r a b : string) :
  ~ In ":"%char (String.list_ascii_of_string a) ->
  ~ In ":"%char (String.list_ascii_of_string b) ->
  m +:+ ":" +:+ r = a +:+ ":" +:+ b -> m = a /\ r = b.
Proof.
  revert m. induction a as [|c a IH]; intros m Ha Hb H; destruct m as [|c' m].
  - rewrite !append_Empty in H. change (":" +:+ r) with (String ":" r) in H.
    change (":" +:+ b) with (String ":" b) in H. injection H as ->. auto.
  - rewrite append_Empty, append_String in H. change (":" +:+ b) with (String ":" b) in H.
    injection H as -> Hr. exfalso. apply Hb. rewrite <- Hr. apply colon_in_key.
  - rewrite append_Empty, append_String in H. change (":" +:+ r) with (String ":" r) in H.
    injection H as Hc Hr. exfalso. apply Ha. left. congruence.
  - rewrite !append_String in H. injection H as -> Hr.
    destruct (IH m) as [-> ->]; auto.
    intro Hc. apply Ha. right. exact Hc.
Qed.

Ltac no_colon := cbv; intros Hc; repeat (destruct Hc as [Hc|Hc]; [discriminate Hc|]); exact Hc.

Lemma route_key_neq (m r a b t : string) :
  t = a +:+ ":" +:+ b ->
  ~ In ":"%char (String.list_ascii_of_string a) ->
  ~ In ":"%char (String.list_ascii_of_string b) ->
  (m, r) <> (a, b) -> String.eqb (m +:+ ":" +:+ r) t = false.
Proof.
  intros -> Ha Hb Hne. destruct (String.eqb_spec (m +:+ ":" +:+ r) (a +:+ ":" +:+ b)) as [H|H];
    [|reflexivity].
  destruct (route_key_inj m r a b Ha Hb H) as [-> ->]. congruence.
Qed.

(** *** Checks of the date and JSON models *)

Example iso_string_epoch : iso_string 0 = "1970-01-01T00:00:00.000Z".
Proof. reflexivity. Qed.

Example iso_string_2023 : iso_string 1672531200000 = "2023-01-01T00:00:00.000Z".
Proof. reflexivity. Qed.

Example json_parse_actor :
  Json.parse ("{" +:+ quoted "id" +:+ ": " +:+ quoted "a1" +:+ ", " +:+ quoted "name" +:+ ": " +:+
              quoted "X" +:+ ", " +:+ quoted "age" +:+ ": 25, " +:+ quoted "knownFor" +:+ ": [" +:+
              quoted "Lost" +:+ "]}")
  = Some (JObj [("id", JStr "a1"); ("name", JStr "X"); ("age", JNum 25 0);
                ("knownFor", JArr [JStr "Lost"])]).
Proof. reflexivity. Qed.

Example json_parse_numbers :
  Json.parse (" [-1.5e2, 0, true, null, " +:+ quoted "a\nb" +:+ "] ")
  = Some (JArr [JNum (-15) 1; JNum 0 0; JBool true; JNull; JStr ("a" +:+ String "010" "b")]).
Proof. reflexivity. Qed.

Example json_parse_bad1 : Json.parse "{" = None.
Proof. reflexivity. Qed.

Example json_parse_bad2 : Json.parse ("{" +:+ quoted "id" +:+ ": 01}") = None.
Proof. reflexivity. Qed.

(** A repeated key keeps its first position and its last value. *)
Example json_parse_dup :
  Json.parse ("{" +:+ quoted "a" +:+ ":1," +:+ quoted "b" +:+ ":2," +:+ quoted "a" +:+ ":3}")
  = Some (JObj [("a", JNum 3 0); ("b", JNum 2 0)]).
Proof. reflexivity. Qed.

Example number_to_string_ex :
  [number_to_string 25 0; number_to_string (-15) (-1); number_to_string 1200 (-3)]
  = ["25"; "-1.5"; "1.2"].
Proof. reflexivity. Qed.

(** * Claims *)

(** C9 (corrected).  Every response of the Actors handler carries the
    headers fixed by its status: [200] and [201] carry [Content-Type] and
    [Access-Control-Allow-Origin]; [204] (empty body) carries only
    [Access-Control-Allow-Origin]; every error response ([400], [404], [409],
    [500]) carries only [Content-Type].  The L3 TVShows handler sets no header
    on any response. *)
Theorem response_headers_by_status (cfg : config) (ev : event) (E : env) (w : world) :
  (exists r, fst (Actors.handler cfg ev E w) = Ok r /\ headers r = actors_headers (statusCode r)) /\
  (exists r, fst (TVShowsL3.handler cfg ev E w) = Ok r /\ headers r = []).
Proof.
  split; [apply actors_handler_hdr | apply l3_handler_no_headers].
Qed.

(** C9 (counterexample).  [GET /actors/a1] on an empty table is a 404 with a
    JSON body and no [Access-Control-Allow-Origin] header. *)
Lemma actors_not_found_without_cors :
  exists r,
    fst (Actors.handler cfg_set (mk_event "GET" "/actors/{id}" "/actors/a1" (Some [("id", "a1")]) None)
           ok_env w0) = Ok r /\
    statusCode r = 404 /\ body r <> Body_text "" /\ ~ In allow_origin (headers r).
Proof.
  eexists. split; [vm_compute; reflexivity|].
  split; [reflexivity|]. split; [discriminate|].
  cbn. intros [H|[]]. discriminate.
Qed.

(** C8 (corrected).  Every 500 response of the Actors handler has the body
    [{ message: m }] for [m] one of seven fixed strings, whatever the fault;
    every 500 response of the part_003 TVShows handler has the body
    [{ message: 'Internal server error', error: e }], [e] being the caught
    error's message: when the [switch] of its [try] rejects with [e], the
    answer is that 500 with [e] in the body; when it resolves, the answer
    is its result, which is never a 500. *)
Theorem server_fault_bodies (cfg : config) (ev : event) (E : env) (w : world) :
  (exists r, fst (Actors.handler cfg ev E w) = Ok r /\
     (statusCode r = 500 -> exists m, In m actors_500_messages /\ body r = message m)) /\
  (exists r, fst (TVShowsTS.handler ev E w) = Ok r /\
     (statusCode r = 500 ->
      exists e, body r = Body_json (JObj [("message", JStr "Internal server error");
                                          ("error", JStr e)]))) /\
  match TVShowsTS.route ev E w with
  | (Throw e, w') =>
      TVShowsTS.handler ev E w =
        (Ok (mk_response 500 TVShowsTS.ct
               (Body_json (JObj [("message", JStr "Internal server error"); ("error", JStr e)]))), w')
  | (Ok r, w') => TVShowsTS.handler ev E w = (Ok r, w') /\ statusCode r <> 500
  end.
Proof.
  split; [apply actors_handler_fault|]. split; [apply ts_handler_fault|].
  pose proof (ts_route_never_500 ev E w) as H500.
  unfold TVShowsTS.handler, try_catch.
  destruct (TVShowsTS.route ev E w) as [[r|e] w']; cbn in H500 |- *; [split|]; auto.
Qed.

(** C8 (counterexample).  When DynamoDB refuses the scan of [GET /tvshows],
    the part_003 handler's 500 body carries the SDK's error message. *)
Lemma ts_fault_detail_in_body :
  exists r,
    fst (TVShowsTS.handler (mk_event "GET" "/tvshows" "/tvshows" None None) scan_denied_env w0) = Ok r /\
    statusCode r = 500 /\
    body r = Body_json (JObj [("message", JStr "Internal server error");
                              ("error", JStr scan_denied_msg)]).
Proof.
  eexists. split; [vm_compute; reflexivity|]. split; reflexivity.
Qed.

(** C6 (corrected).  With [TABLE_NAME] set, a request whose (method,
    resource) pair is none of the five routes gets from the Actors handler a
    400 with the message [Unsupported operation: <method> <resource>], and no
    DynamoDB call is made (the world is unchanged); a request that takes none
    of the four branches of the L3 TVShows handler gets a 400 with the fixed
    message [Unsupported operation], again with no call. *)
Theorem unmatched_route_response (cfg : config) (ev1 ev2 : event) (E : env) (w : world) :
  table_name_unset cfg = false ->
  ~ In (httpMethod ev1, resource ev1) actors_routes ->
  l3_routed ev2 = false ->
  Actors.handler cfg ev1 E w =
    (Ok (mk_response 400 [content_type]
           (message ("Unsupported operation: " +:+ httpMethod ev1 +:+ " " +:+ resource ev1))), w) /\
  TVShowsL3.handler cfg ev2 E w = (Ok (mk_response 400 [] (message "Unsupported operation")), w).
Proof.
  intros Hcfg Hn Hl3. split.
  - unfold Actors.handler. rewrite Hcfg. unfold try_catch. cbv zeta.
    assert (Hne : forall a b, In (a, b) actors_routes ->
              (httpMethod ev1, resource ev1) <> (a, b)) by (intros a b Hin Heq; rewrite Heq in Hn; auto).
    rewrite (route_key_neq _ _ "GET" "/actors" "GET:/actors"); [| reflexivity | no_colon | no_colon |
      apply Hne; cbn; tauto].
    rewrite (route_key_neq _ _ "GET" "/actors/{id}" "GET:/actors/{id}"); [| reflexivity | no_colon | no_colon |
      apply Hne; cbn; tauto].
    rewrite (route_key_neq _ _ "POST" "/actors" "POST:/actors"); [| reflexivity | no_colon | no_colon |
      apply Hne; cbn; tauto].
    rewrite (route_key_neq _ _ "PUT" "/actors/{id}" "PUT:/actors/{id}"); [| reflexivity | no_colon | no_colon |
      apply Hne; cbn; tauto].
    rewrite (route_key_neq _ _ "DELETE" "/actors/{id}" "DELETE:/actors/{id}"); [| reflexivity | no_colon | no_colon |
      apply Hne; cbn; tauto].
    reflexivity.
  - unfold TVShowsL3.handler. rewrite Hcfg. unfold try_catch. cbv zeta.
    unfold l3_routed in Hl3. apply orb_false_iff in Hl3 as [Hl3 H4].
    apply orb_false_iff in Hl3 as [Hl3 H3]. apply orb_false_iff in Hl3 as [H1 H2].
    rewrite H1, H2, H3, H4. reflexivity.
Qed.

(** C6 (witness). *)
Lemma unmatched_route_response_witness :
  Actors.handler cfg_set (mk_event "PATCH" "/actors" "/actors" None None) ok_env w0 =
    (Ok (mk_response 400 [content_type] (message "Unsupported operation: PATCH /actors")), w0) /\
  TVShowsL3.handler cfg_set (mk_event "PATCH" "/tvshows" "/tvshows" None None) ok_env w0 =
    (Ok (mk_response 400 [] (message "Unsupported operation")), w0).
Proof.
  apply (unmatched_route_response cfg_set (mk_event "PATCH" "/actors" "/actors" None None)
           (mk_event "PATCH" "/tvshows" "/tvshows" None None) ok_env w0).
  - reflexivity.
  - cbv. intros H. repeat (destruct H as [H|H]; [discriminate H|]); exact H.
  - reflexivity.
Defined.

(** C6 (counterexample).  [PATCH /tvshows] to the L3 handler is a 400 whose
    message names neither the method nor the path. *)
Lemma l3_unmatched_message_omits_route :
  exists r,
    fst (TVShowsL3.handler cfg_set (mk_event "PATCH" "/tvshows" "/tvshows" None None) ok_env w0) = Ok r /\
    statusCode r = 400 /\ body r = message "Unsupported operation" /\
    String.index 0 "PATCH" "Unsupported operation" = None /\
    String.index 0 "/tvshows" "Unsupported operation" = None.
Proof.
  eexists. split; [vm_compute; reflexivity|]. repeat split; reflexivity.
Qed.

(** C7 (corrected).  With [TABLE_NAME] set, a [POST /actors], or a
    [PUT /actors/{id}] with an [id] path parameter, whose body is a non-empty
    string that is not JSON gets from the Actors handler a 500 with the fixed
    body [{ message: 'Internal server error' }] (no stack trace, but not a
    400), and no DynamoDB call is made. *)
Theorem malformed_body_is_server_error (cfg : config) (ev : event) (E : env) (w : world) (b : string) :
  table_name_unset cfg = false ->
  ev_body ev = Some b -> b <> "" -> Json.parse b = None ->
  (httpMethod ev = "POST" /\ resource ev = "/actors") \/
  (httpMethod ev = "PUT" /\ resource ev = "/actors/{id}" /\ nonempty (path_id ev) <> None) ->
  Actors.handler cfg ev E w = (Ok (mk_response 500 [content_type] (message "Internal server error")), w).
Proof.
  intros Hcfg Hb Hne Hp Hroute.
  assert (Hbody : body_or_empty ev = b).
  { unfold body_or_empty. rewrite Hb. destruct (String.eqb_spec b ""); congruence. }
  unfold Actors.handler. rewrite Hcfg. unfold try_catch. cbv zeta. rewrite Hbody.
  unfold bind, json_parse. rewrite Hp.
  destruct Hroute as [[Hm Hr] | (Hm & Hr & Hid)]; rewrite Hm, Hr.
  - reflexivity.
  - destruct (nonempty (path_id ev)); [reflexivity | congruence].
Qed.

(** C7 (witness). *)
Lemma malformed_body_is_server_error_witness :
  Actors.handler cfg_set (mk_event "POST" "/actors" "/actors" None (Some "{")) ok_env w0 =
    (Ok (mk_response 500 [content_type] (message "Internal server error")), w0).
Proof.
  apply (malformed_body_is_server_error cfg_set _ ok_env w0 "{").
  - reflexivity.
  - reflexivity.
  - discriminate.
  - reflexivity.
  - left. split; reflexivity.
Defined.

(** C7 (counterexample).  [POST /actors] with the body [{] is answered 500,
    not 400. *)
Lemma malformed_post_not_400 :
  Json.parse "{" = None /\
  exists r,
    fst (Actors.handler cfg_set (mk_event "POST" "/actors" "/actors" None (Some "{")) ok_env w0) = Ok r /\
    statusCode r = 500 /\ statusCode r <> 400.
Proof.
  split; [reflexivity|]. eexists. split; [vm_compute; reflexivity|]. split; [reflexivity|discriminate].
Qed.

(** C1 (corrected).  On a healthy DynamoDB, an Actors [create] of a valid
    payload whose [id] is not in the table answers 201 with an item that a
    following [getById] returns with 200; the item keeps every property of the
    payload, and its [createdAt] and [updatedAt] are the same ISO time [t],
    at or after the start of the call.  On the same store, the L3 TVShows
    [create] of an object with a non-empty string [id] and a truthy [title]
    answers 201 with [{ message, id }], and the item a following [getById]
    returns has [createdAt] the ISO time of the call and no [updatedAt]. *)
Theorem create_then_get (E : env) (w : world) (p : obj) (i : string) :
  healthy E -> actor_payload p -> obj_lookup p "id" = Some (JStr i) -> table w !! i = None ->
  (exists it t,
    fst (Actors.create (JObj p) E w) =
      Ok (mk_response 201 [content_type; allow_origin] (Body_json (JObj it))) /\
    fst (Actors.getById i E (snd (Actors.create (JObj p) E w))) =
      Ok (mk_response 200 [content_type; allow_origin] (Body_json (JObj it))) /\
    (forall k v, obj_lookup p k = Some v -> obj_lookup it k = Some v) /\
    obj_lookup it "createdAt" = Some (JStr (iso_string t)) /\
    obj_lookup it "updatedAt" = Some (JStr (iso_string t)) /\
    clock w <= t) /\
  (forall (q : obj) (j : string),
    obj_lookup q "id" = Some (JStr j) -> j <> "" -> truthy (obj_get q "title") = true ->
    fst (TVShowsL3.create (JObj q) E w) =
      Ok (mk_response 201 []
            (Body_json (JObj [("message", JStr "TV show created successfully"); ("id", JStr j)]))) /\
    exists it,
      fst (TVShowsL3.getById j E (snd (TVShowsL3.create (JObj q) E w))) =
        Ok (mk_response 200 [] (Body_json (JObj it))) /\
      obj_lookup it "createdAt" = Some (JStr (iso_string (clock w))) /\
      obj_lookup it "updatedAt" = None).
Proof.
  intros HE (Hid' & (n & Hn & Hn0) & Hf) Hid Hfresh.
  split.
  2:{ intros q j Hq Hj Ht. rewrite (l3_create_run E w q j HE Hq Hj Ht). cbn [fst snd].
      split; [reflexivity|]. rewrite (l3_getById_run _ _ _ HE). cbn [fst table].
      rewrite lookup_insert_eq. eexists. split; [reflexivity|]. split; reflexivity. }
  assert (Hi : i <> "").
  { destruct Hid' as (i' & Hi' & Hne). congruence. }
  assert (Hname : truthy (obj_get p "name") = true).
  { rewrite (obj_get_lookup _ _ _ Hn). unfold truthy. destruct (String.eqb_spec n ""); [congruence|reflexivity]. }
  pose proof (actors_create_fresh E w p i HE Hid Hi Hname Hfresh) as Hc. cbv zeta in Hc.
  rewrite Hc. cbn [fst snd].
  eexists _, _. split; [reflexivity|]. split.
  - rewrite (actors_getById_run _ _ _ HE). cbn [fst table].
    rewrite lookup_insert_eq. reflexivity.
  - split; [intros k v; apply actors_new_actor_keeps; exact Hf|].
    split; [reflexivity|]. split; [reflexivity|]. lia.
Qed.

(** C1 (witness). *)
Lemma create_then_get_witness :
  (exists it t,
    fst (Actors.create (JObj [("id", JStr "a2"); ("name", JStr "Y")]) ok_env w0) =
      Ok (mk_response 201 [content_type; allow_origin] (Body_json (JObj it))) /\
    fst (Actors.getById "a2" ok_env
           (snd (Actors.create (JObj [("id", JStr "a2"); ("name", JStr "Y")]) ok_env w0))) =
      Ok (mk_response 200 [content_type; allow_origin] (Body_json (JObj it))) /\
    (forall k v, obj_lookup [("id", JStr "a2"); ("name", JStr "Y")] k = Some v ->
       obj_lookup it k = Some v) /\
    obj_lookup it "createdAt" = Some (JStr (iso_string t)) /\
    obj_lookup it "updatedAt" = Some (JStr (iso_string t)) /\
    clock w0 <= t) /\
  (forall (q : obj) (j : string),
    obj_lookup q "id" = Some (JStr j) -> j <> "" -> truthy (obj_get q "title") = true ->
    fst (TVShowsL3.create (JObj q) ok_env w0) =
      Ok (mk_response 201 []
            (Body_json (JObj [("message", JStr "TV show created successfully"); ("id", JStr j)]))) /\
    exists it,
      fst (TVShowsL3.getById j ok_env (snd (TVShowsL3.create (JObj q) ok_env w0))) =
        Ok (mk_response 200 [] (Body_json (JObj it))) /\
      obj_lookup it "createdAt" = Some (JStr (iso_string (clock w0))) /\
      obj_lookup it "updatedAt" = None).
Proof.
  apply (create_then_get ok_env w0 [("id", JStr "a2"); ("name", JStr "Y")] "a2").
  - intros c. reflexivity.
  - split; [exists "a2"; split; [reflexivity|discriminate]|].
    split; [exists "Y"; split; [reflexivity|discriminate]|].
    constructor; [left; split; [now left | eexists; reflexivity]|].
    constructor; [left; split; [right; now left | eexists; reflexivity]|].
    constructor.
  - reflexivity.
  - reflexivity.
Defined.

(** C1 (counterexample).  The L3 TVShows [create] answers 201 with a
    confirmation message, not the item, and stores an item with [createdAt]
    but no [updatedAt], which [getById] then returns. *)
Lemma l3_created_show_lacks_updatedAt :
  let p := [("id", JStr "s2"); ("title", JStr "Y")] in
  fst (TVShowsL3.create (JObj p) ok_env w0) =
    Ok (mk_response 201 [] (Body_json (JObj [("message", JStr "TV show created successfully");
                                              ("id", JStr "s2")]))) /\
  exists it,
    fst (TVShowsL3.getById "s2" ok_env (snd (TVShowsL3.create (JObj p) ok_env w0))) =
      Ok (mk_response 200 [] (Body_json (JObj it))) /\
    obj_lookup it "createdAt" = Some (JStr "2023-01-01T00:00:00.000Z") /\
    obj_lookup it "updatedAt" = None.
Proof.
  cbv zeta. split; [vm_compute; reflexivity|].
  eexists. split; [vm_compute; reflexivity|]. split; reflexivity.
Qed.

(** C2 (corrected).  On a healthy DynamoDB, two Actors [create] calls with
    the same payload, whose [id] is a non-empty string not in the table and
    whose [name] is truthy, answer 201 and then 409 with the message
    [Actor with id <id> already exists]; the second call only reads the
    item (a [GetCommand] on the [id]) and leaves the table as the first left
    it.  The L3 TVShows [create] makes no existence check: two calls with an
    object whose [id] is a non-empty string and whose [title] is truthy both
    answer 201, and the second overwrites the item the first stored. *)
Theorem create_twice_conflict (E : env) (w : world) (p : obj) (i : string) :
  healthy E -> obj_lookup p "id" = Some (JStr i) -> i <> "" ->
  truthy (obj_get p "name") = true -> table w !! i = None ->
  let w1 := snd (Actors.create (JObj p) E w) in
  (exists b, fst (Actors.create (JObj p) E w) = Ok (mk_response 201 [content_type; allow_origin] b)) /\
  fst (Actors.create (JObj p) E w1) =
    Ok (mk_response 409 [content_type] (message ("Actor with id " +:+ i +:+ " already exists"))) /\
  table (snd (Actors.create (JObj p) E w1)) = table w1 /\
  trace (snd (Actors.create (JObj p) E w1)) = trace w1 ++ [GGet (JStr i)] /\
  (forall (q : obj) (j : string),
    obj_lookup q "id" = Some (JStr j) -> j <> "" -> truthy (obj_get q "title") = true ->
    let v1 := snd (TVShowsL3.create (JObj q) E w) in
    let created := mk_response 201 []
      (Body_json (JObj [("message", JStr "TV show created successfully"); ("id", JStr j)])) in
    fst (TVShowsL3.create (JObj q) E w) = Ok created /\
    table v1 !! j = Some (TVShowsL3.new_show q (iso_string (clock w))) /\
    fst (TVShowsL3.create (JObj q) E v1) = Ok created /\
    table (snd (TVShowsL3.create (JObj q) E v1)) =
      <[j := TVShowsL3.new_show q (iso_string (clock v1))]> (table v1)).
Proof.
  intros HE Hid Hi Hname Hfresh. cbv zeta.
  assert (HL3 : forall (q : obj) (j : string),
    obj_lookup q "id" = Some (JStr j) -> j <> "" -> truthy (obj_get q "title") = true ->
    fst (TVShowsL3.create (JObj q) E w) =
      Ok (mk_response 201 []
            (Body_json (JObj [("message", JStr "TV show created successfully"); ("id", JStr j)]))) /\
    table (snd (TVShowsL3.create (JObj q) E w)) !! j =
      Some (TVShowsL3.new_show q (iso_string (clock w))) /\
    fst (TVShowsL3.create (JObj q) E (snd (TVShowsL3.create (JObj q) E w))) =
      Ok (mk_response 201 []
            (Body_json (JObj [("message", JStr "TV show created successfully"); ("id", JStr j)]))) /\
    table (snd (TVShowsL3.create (JObj q) E (snd (TVShowsL3.create (JObj q) E w)))) =
      <[j := TVShowsL3.new_show q (iso_string (clock (snd (TVShowsL3.create (JObj q) E w))))]>
        (table (snd (TVShowsL3.create (JObj q) E w)))).
  { intros q j Hq Hj Ht. rewrite (l3_create_run E w q j HE Hq Hj Ht). cbn [fst snd table clock].
    rewrite (l3_create_run E _ q j HE Hq Hj Ht). cbn [fst snd table clock].
    split; [reflexivity|]. split; [apply lookup_insert_eq|]. split; reflexivity. }
  pose proof (actors_create_fresh E w p i HE Hid Hi Hname Hfresh) as Hc. cbv zeta in Hc.
  rewrite Hc. cbn [fst snd]. split; [eexists; reflexivity|].
  rewrite (actors_create_existing _ _ p i (Actors.new_actor p
             (iso_string (clock w + Z.of_N (latency E (GGet (JStr i))))))); try assumption.
  - split; [reflexivity|]. split; [reflexivity|]. split; [reflexivity|]. exact HL3.
  - cbn [table]. apply lookup_insert_eq.
Qed.

(** C2 (witness). *)
Lemma create_twice_conflict_witness :
  let p := [("id", JStr "a2"); ("name", JStr "Y")] in
  let w1 := snd (Actors.create (JObj p) ok_env w0) in
  (exists b, fst (Actors.create (JObj p) ok_env w0) = Ok (mk_response 201 [content_type; allow_origin] b)) /\
  fst (Actors.create (JObj p) ok_env w1) =
    Ok (mk_response 409 [content_type] (message ("Actor with id " +:+ "a2" +:+ " already exists"))) /\
  table (snd (Actors.create (JObj p) ok_env w1)) = table w1 /\
  trace (snd (Actors.create (JObj p) ok_env w1)) = trace w1 ++ [GGet (JStr "a2")] /\
  (forall (q : obj) (j : string),
    obj_lookup q "id" = Some (JStr j) -> j <> "" -> truthy (obj_get q "title") = true ->
    let v1 := snd (TVShowsL3.create (JObj q) ok_env w0) in
    let created := mk_response 201 []
      (Body_json (JObj [("message", JStr "TV show created successfully"); ("id", JStr j)])) in
    fst (TVShowsL3.create (JObj q) ok_env w0) = Ok created /\
    table v1 !! j = Some (TVShowsL3.new_show q (iso_string (clock w0))) /\
    fst (TVShowsL3.create (JObj q) ok_env v1) = Ok created /\
    table (snd (TVShowsL3.create (JObj q) ok_env v1)) =
      <[j := TVShowsL3.new_show q (iso_string (clock v1))]> (table v1)).
Proof.
  apply (create_twice_conflict ok_env w0 [("id", JStr "a2"); ("name", JStr "Y")] "a2").
  - intros c. reflexivity.
  - reflexivity.
  - discriminate.
  - reflexivity.
  - reflexivity.
Defined.

(** C2 (counterexample).  The L3 TVShows [create] makes no existence check:
    the same payload twice is answered 201 both times. *)
Lemma l3_create_twice_both_201 :
  let p := [("id", JStr "s2"); ("title", JStr "Y")] in
  let created := mk_response 201 [] (Body_json (JObj [("message", JStr "TV show created successfully");
                                                      ("id", JStr "s2")])) in
  fst (TVShowsL3.create (JObj p) ok_env w0) = Ok created /\
  fst (TVShowsL3.create (JObj p) ok_env (snd (TVShowsL3.create (JObj p) ok_env w0))) = Ok created.
Proof.
  cbv zeta. split; vm_compute; reflexivity.
Qed.

(** C3 (corrected).  On a healthy DynamoDB, an Actors [update] of a stored
    item [s] (the table being well formed) with an object payload [p] without
    repeated keys answers 200 with the item [m] it writes in place of [s]
    (the calls being a [GetCommand] then a [PutCommand] of [m]), where [m]
    has the path's [id], the stored [createdAt], [updatedAt] the ISO time [t]
    of the call (at or after its start), and for every other property the
    payload's value if it has one, else the stored one.  The part_003
    TVShows [update] of the same stored id with the same payload does not
    merge: it answers 200 with the item [m] it writes, whose [id] is the
    path's, [createdAt] the stored one and [updatedAt] the ISO time [t] of
    the call, and whose every other property is the payload's, so a stored
    property the payload lacks is lost. *)
Theorem update_merges (E : env) (w : world) (i : string) (s p : obj) :
  healthy E -> table_wf (table w) -> table w !! i = Some s -> NoDup (map fst p) ->
  (exists m t,
    fst (Actors.update i (JObj p) E w) =
      Ok (mk_response 200 [content_type; allow_origin] (Body_json (JObj m))) /\
    table (snd (Actors.update i (JObj p) E w)) = <[i := m]> (table w) /\
    trace (snd (Actors.update i (JObj p) E w)) = trace w ++ [GGet (JStr i); GPut m] /\
    clock w <= t /\
    obj_lookup m "id" = Some (JStr i) /\
    obj_lookup m "createdAt" = obj_lookup s "createdAt" /\
    obj_lookup m "updatedAt" = Some (JStr (iso_string t)) /\
    (forall k, k <> "id" -> k <> "createdAt" -> k <> "updatedAt" ->
       obj_lookup m k = match obj_lookup p k with Some v => Some v | None => obj_lookup s k end)) /\
  (exists m t,
    fst (TVShowsTS.update i (JObj p) E w) =
      Ok (mk_response 200 TVShowsTS.ct (Body_json (JObj m))) /\
    table (snd (TVShowsTS.update i (JObj p) E w)) = <[i := m]> (table w) /\
    clock w <= t /\
    obj_lookup m "id" = Some (JStr i) /\
    obj_lookup m "createdAt" = Some (obj_get s "createdAt") /\
    obj_lookup m "updatedAt" = Some (JStr (iso_string t)) /\
    (forall k, k <> "id" -> k <> "createdAt" -> k <> "updatedAt" -> obj_lookup m k = obj_lookup p k)).
Proof.
  intros HE Hwf Hs Hp. destruct (Hwf i s Hs) as [Hid Hnd]. split.
  2:{ rewrite (ts_update_present E w i s p HE Hs). cbn [fst snd table].
      eexists _, (clock w + Z.of_N (latency E (GGet (JStr i)))).
      split; [reflexivity|]. split; [reflexivity|]. split; [lia|].
      rewrite !obj_lookup_set. split; [reflexivity|]. split; [reflexivity|]. split; [reflexivity|].
      intros k H1 H2 H3. rewrite !obj_lookup_set.
      destruct (String.eqb_spec "updatedAt" k); [congruence|].
      destruct (String.eqb_spec "createdAt" k); [congruence|].
      destruct (String.eqb_spec "id" k); [congruence|]. reflexivity. }
  pose proof (actors_update_present E w i s p HE Hs Hid Hnd) as Hu. cbv zeta in Hu.
  rewrite Hu. cbn [fst snd table trace].
  eexists _, (clock w + Z.of_N (latency E (GGet (JStr i)))). split; [reflexivity|]. split; [reflexivity|].
  split; [rewrite <- app_assoc; reflexivity|]. split; [lia|].
  rewrite !actors_merge_lookup, !(obj_lookup_rev s) by exact Hnd. cbn [String.eqb orb].
  split; [cbv [String.eqb Ascii.eqb Bool.eqb orb]; exact Hid|].
  split; [reflexivity|]. split; [reflexivity|].
  intros k H1 H2 H3. rewrite actors_merge_lookup, (obj_lookup_rev s) by exact Hnd.
  destruct (String.eqb_spec k "updatedAt"); [congruence|].
  destruct (String.eqb_spec k "id"); [congruence|].
  destruct (String.eqb_spec k "createdAt"); [congruence|].
  cbn [orb]. rewrite obj_lookup_rev by exact Hp. reflexivity.
Qed.

(** C3 (witness).  The payload's [id] and [createdAt] are ignored. *)
Lemma update_merges_witness :
  let p := [("name", JStr "Z"); ("id", JStr "a9"); ("createdAt", JStr "1999")] in
  (exists m t,
    fst (Actors.update "a1" (JObj p) ok_env w_a1) =
      Ok (mk_response 200 [content_type; allow_origin] (Body_json (JObj m))) /\
    table (snd (Actors.update "a1" (JObj p) ok_env w_a1)) = <[ "a1" := m ]> (table w_a1) /\
    trace (snd (Actors.update "a1" (JObj p) ok_env w_a1)) = trace w_a1 ++ [GGet (JStr "a1"); GPut m] /\
    clock w_a1 <= t /\
    obj_lookup m "id" = Some (JStr "a1") /\
    obj_lookup m "createdAt" = obj_lookup actor_a1 "createdAt" /\
    obj_lookup m "updatedAt" = Some (JStr (iso_string t)) /\
    (forall k, k <> "id" -> k <> "createdAt" -> k <> "updatedAt" ->
       obj_lookup m k = match obj_lookup p k with Some v => Some v | None => obj_lookup actor_a1 k end)) /\
  (exists m t,
    fst (TVShowsTS.update "a1" (JObj p) ok_env w_a1) =
      Ok (mk_response 200 TVShowsTS.ct (Body_json (JObj m))) /\
    table (snd (TVShowsTS.update "a1" (JObj p) ok_env w_a1)) = <["a1" := m]> (table w_a1) /\
    clock w_a1 <= t /\
    obj_lookup m "id" = Some (JStr "a1") /\
    obj_lookup m "createdAt" = Some (obj_get actor_a1 "createdAt") /\
    obj_lookup m "updatedAt" = Some (JStr (iso_string t)) /\
    (forall k, k <> "id" -> k <> "createdAt" -> k <> "updatedAt" -> obj_lookup m k = obj_lookup p k)).
Proof.
  apply (update_merges ok_env w_a1 "a1" actor_a1).
  - intros c. reflexivity.
  - intros k o H. cbn [table w_a1] in H. apply lookup_singleton_Some in H as [<- <-].
    split; [reflexivity|]. apply (bool_decide_unpack _). reflexivity.
  - apply lookup_singleton_eq.
  - apply (bool_decide_unpack _). reflexivity.
Defined.

(** C3 (counterexample).  The part_003 TVShows [update] writes the payload
    with [id], [createdAt] and [updatedAt] set, without the stored
    properties: updating the stored [s1] with [{ title: 'Y' }] loses its
    [genre]. *)
Lemma ts_update_drops_stored_fields :
  let r := TVShowsTS.update "s1" (JObj [("title", JStr "Y")]) ok_env w_s1 in
  obj_lookup show_s1 "genre" = Some (JStr "Drama") /\
  exists m,
    fst r = Ok (mk_response 200 TVShowsTS.ct (Body_json (JObj m))) /\
    table (snd r) !! "s1" = Some m /\
    obj_lookup m "genre" = None.
Proof.
  cbv zeta. split; [reflexivity|].
  eexists. split; [vm_compute; reflexivity|]. split; [vm_compute; reflexivity|]. reflexivity.
Qed.

(** C4 (confirmed).  On a healthy DynamoDB, for an [id] not in the table,
    the Actors [update] (whatever the payload) and [delete] both answer 404
    with the message [Actor with id <id> not found]; each makes a single
    [GetCommand] and no write, so the table is unchanged and the item is
    still absent. *)
Theorem absent_id_no_write (E : env) (w : world) (i : string) (u : jsval) :
  healthy E -> table w !! i = None ->
  let nf := mk_response 404 [content_type] (message ("Actor with id " +:+ i +:+ " not found")) in
  fst (Actors.update i u E w) = Ok nf /\
  table (snd (Actors.update i u E w)) = table w /\
  trace (snd (Actors.update i u E w)) = trace w ++ [GGet (JStr i)] /\
  fst (Actors.delete i E w) = Ok nf /\
  table (snd (Actors.delete i E w)) = table w /\
  trace (snd (Actors.delete i E w)) = trace w ++ [GGet (JStr i)] /\
  table (snd (Actors.delete i E w)) !! i = None.
Proof.
  intros HE Hn. cbv zeta.
  rewrite (actors_update_absent E w i u HE Hn), (actors_delete_absent E w i HE Hn).
  cbn [fst snd table trace]. repeat split. exact Hn.
Qed.

(** C4 (witness). *)
Lemma absent_id_no_write_witness :
  let nf := mk_response 404 [content_type] (message ("Actor with id " +:+ "a1" +:+ " not found")) in
  fst (Actors.update "a1" (JObj [("name", JStr "Y")]) ok_env w0) = Ok nf /\
  table (snd (Actors.update "a1" (JObj [("name", JStr "Y")]) ok_env w0)) = table w0 /\
  trace (snd (Actors.update "a1" (JObj [("name", JStr "Y")]) ok_env w0)) = trace w0 ++ [GGet (JStr "a1")] /\
  fst (Actors.delete "a1" ok_env w0) = Ok nf /\
  table (snd (Actors.delete "a1" ok_env w0)) = table w0 /\
  trace (snd (Actors.delete "a1" ok_env w0)) = trace w0 ++ [GGet (JStr "a1")] /\
  table (snd (Actors.delete "a1" ok_env w0)) !! "a1" = None.
Proof.
  apply (absent_id_no_write ok_env w0 "a1" (JObj [("name", JStr "Y")])).
  - intros c. reflexivity.
  - reflexivity.
Defined.

(** C5 (corrected).  On a healthy DynamoDB, the Actors [delete] of a stored
    [id] answers 204 with an empty body and only
    [Access-Control-Allow-Origin], and a following [getById] answers 404.
    The L3 TVShows [deleteById] of any id answers 200 with the body
    [{ message: 'TV show deleted successfully' }] or rejects with the fault;
    on the healthy DynamoDB it answers 200, and a following [getById]
    answers 404. *)
Theorem delete_then_get (E : env) (w : world) (i : string) (o : obj) :
  healthy E -> table w !! i = Some o ->
  fst (Actors.delete i E w) = Ok (mk_response 204 [allow_origin] (Body_text "")) /\
  fst (Actors.getById i E (snd (Actors.delete i E w))) =
    Ok (mk_response 404 [content_type] (message ("Actor with id " +:+ i +:+ " not found"))) /\
  (forall E' w' j,
    fst (TVShowsL3.deleteById j E' w') = Ok (mk_response 200 [] (message "TV show deleted successfully"))
    \/ exists e, fst (TVShowsL3.deleteById j E' w') = Throw e) /\
  (forall w' j,
    fst (TVShowsL3.deleteById j E w') = Ok (mk_response 200 [] (message "TV show deleted successfully")) /\
    fst (TVShowsL3.getById j E (snd (TVShowsL3.deleteById j E w'))) =
      Ok (mk_response 404 [] (message "TV show not found"))).
Proof.
  intros HE Hs. rewrite (actors_delete_present E w i o HE Hs). cbn [fst snd].
  split; [reflexivity|]. split.
  - rewrite (actors_getById_run _ _ _ HE). cbn [fst table]. rewrite lookup_delete_eq. reflexivity.
  - split.
    + intros E' [tb ck tr] j. unfold TVShowsL3.deleteById. run_step.
      destruct (fault E' (GDelete (JStr j))); run_step; [right; eexists; reflexivity|left; reflexivity].
    + intros w' j. rewrite (l3_deleteById_run _ _ _ HE). cbn [fst snd].
      split; [reflexivity|]. rewrite (l3_getById_run _ _ _ HE). cbn [fst table].
      rewrite lookup_delete_eq. reflexivity.
Qed.

(** C5 (witness). *)
Lemma delete_then_get_witness :
  fst (Actors.delete "a1" ok_env w_a1) = Ok (mk_response 204 [allow_origin] (Body_text "")) /\
  fst (Actors.getById "a1" ok_env (snd (Actors.delete "a1" ok_env w_a1))) =
    Ok (mk_response 404 [content_type] (message ("Actor with id " +:+ "a1" +:+ " not found"))) /\
  (forall E' w' j,
    fst (TVShowsL3.deleteById j E' w') = Ok (mk_response 200 [] (message "TV show deleted successfully"))
    \/ exists e, fst (TVShowsL3.deleteById j E' w') = Throw e) /\
  (forall w' j,
    fst (TVShowsL3.deleteById j ok_env w') = Ok (mk_response 200 [] (message "TV show deleted successfully")) /\
    fst (TVShowsL3.getById j ok_env (snd (TVShowsL3.deleteById j ok_env w'))) =
      Ok (mk_response 404 [] (message "TV show not found"))).
Proof.
  apply (delete_then_get ok_env w_a1 "a1" actor_a1).
  - intros c. reflexivity.
  - apply lookup_singleton_eq.
Defined.

(** C5 (counterexample).  The L3 TVShows [deleteById] of the stored [s1]
    answers 200 with a JSON message, not 204 with an empty body; a following
    [getById] answers 404. *)
Lemma l3_delete_answers_200 :
  fst (TVShowsL3.deleteById "s1" ok_env w_s1) =
    Ok (mk_response 200 [] (message "TV show deleted successfully")) /\
  message "TV show deleted successfully" <> Body_text "" /\
  fst (TVShowsL3.getById "s1" ok_env (snd (TVShowsL3.deleteById "s1" ok_env w_s1))) =
    Ok (mk_response 404 [] (message "TV show not found")).
Proof.
  split; [vm_compute; reflexivity|]. split; [discriminate|]. vm_compute. reflexivity.
Qed.

(** C10 (confirmed).  Whatever the payload [a] and whatever DynamoDB does,
    every item the Actors [create] puts, and the item in any 201 body, has
    exactly the schema's properties: the payload's [id], [name], [age] and
    [nationality], [knownFor] defaulting to [[]], [isActive] defaulting to
    [true], and equal timestamps; any other property of the payload is
    dropped.  By contrast, on a healthy DynamoDB the Actors [update] of a
    stored item writes every payload property other than [id], [createdAt]
    and [updatedAt], whatever its name. *)
Theorem create_drops_extra_fields :
  (forall (a : jsval) (E : env) (w : world),
     (exists sfx, trace (snd (Actors.create a E w)) = trace w ++ sfx /\
        forall it, In (GPut it) sfx -> actor_item (own_props a) it) /\
     (forall r, fst (Actors.create a E w) = Ok r -> statusCode r = 201 ->
        exists it, body r = Body_json (JObj it) /\ actor_item (own_props a) it)) /\
  (forall (E : env) (w : world) (i : string) (s p : obj) k v,
     healthy E -> table_wf (table w) -> table w !! i = Some s -> NoDup (map fst p) ->
     ~ In k ["id"; "createdAt"; "updatedAt"] -> obj_lookup p k = Some v ->
     exists m, table (snd (Actors.update i (JObj p) E w)) !! i = Some m /\ obj_lookup m k = Some v).
Proof.
  split.
  - intros a E w. pose proof (actors_create_puts a E w) as H.
    destruct (Actors.create a E w) as [r w'] eqn:Hc. cbn [fst snd].
    destruct H as [[sfx [Htr Hput]] Hbody]. split.
    + exists sfx. split; [exact Htr|]. intros it Hin.
      destruct (Hput it Hin) as [st ->]. apply actors_new_actor_item.
    + intros resp Hr Hs. destruct (Hbody resp Hr Hs) as [st Hb].
      eexists. split; [exact Hb|]. apply actors_new_actor_item.
  - intros E w i s p k v HE Hwf Hs Hp Hk Hv. destruct (Hwf i s Hs) as [Hid Hnd].
    pose proof (actors_update_present E w i s p HE Hs Hid Hnd) as Hu. cbv zeta in Hu.
    rewrite Hu. cbn [snd table]. eexists. split; [apply lookup_insert_eq|].
    rewrite actors_merge_lookup, (obj_lookup_rev s) by exact Hnd.
    destruct (String.eqb_spec k "updatedAt"); [subst; cbn in Hk; tauto|].
    destruct (String.eqb_spec k "id"); [subst; cbn in Hk; tauto|].
    destruct (String.eqb_spec k "createdAt"); [subst; cbn in Hk; tauto|].
    cbn [orb]. rewrite obj_lookup_rev by exact Hp. rewrite Hv. reflexivity.
Qed.

(** C10 (witness).  The update half at a property outside the schema. *)
Lemma create_drops_extra_fields_witness :
  exists m, table (snd (Actors.update "a1" (JObj [("award", JStr "Emmy")]) ok_env w_a1)) !! "a1" = Some m /\
    obj_lookup m "award" = Some (JStr "Emmy").
Proof.
  apply (proj2 create_drops_extra_fields ok_env w_a1 "a1" actor_a1 [("award", JStr "Emmy")]).
  - intros c. reflexivity.
  - intros k o H. cbn [table w_a1] in H. apply lookup_singleton_Some in H as [<- <-].
    split; [reflexivity|]. apply (bool_decide_unpack _). reflexivity.
  - apply lookup_singleton_eq.
  - apply (bool_decide_unpack _). reflexivity.
  - cbn. intros H. repeat (destruct H as [H|H]; [discriminate H|]). exact H.
  - reflexivity.
Defined.

(** Create drops a property outside the schema on a concrete run. *)
Example create_drops_award :
  exists it,
    fst (Actors.create (JObj [("id", JStr "a2"); ("name", JStr "Y"); ("award", JStr "Emmy")]) ok_env w0) =
      Ok (mk_response 201 [content_type; allow_origin] (Body_json (JObj it))) /\
    obj_lookup it "award" = None /\ obj_lookup it "isActive" = Some (JBool true) /\
    obj_lookup it "knownFor" = Some (JArr []).
Proof.
  eexists. split; [vm_compute; reflexivity|]. repeat split; reflexivity.
Qed.

(** * Further properties of the handlers *)

(** ** Helpers *)

Ltac eqb_lit :=
  repeat match goal with
  | |- context[String.eqb ?a ?b] =>
      is_ground a; is_ground b;
      let v := eval vm_compute in (String.eqb a b) in change (String.eqb a b) with v
  end.

Lemma prefix_iff (x s : string) : String.prefix x s = true <-> exists r, s = x +:+ r.
Proof.
  revert s. induction x as [|a x IH]; intros s.
  - split; [intros _; exists s; reflexivity|intros _; destruct s; reflexivity].
  - destruct s as [|b s]; cbn.
    + split; [discriminate|]. intros [r Hr]. discriminate Hr.
    + destruct (ascii_dec a b) as [->|Hne].
      * rewrite IH. split; intros [r Hr]; exists r; [rewrite Hr; reflexivity|].
        injection Hr as Hr. exact Hr.
      * split; [discriminate|]. intros [r Hr]. injection Hr as Hab _. congruence.
Qed.

Lemma append_not_empty (a b : string) c : a +:+ String c b <> EmptyString.
Proof. destruct a; discriminate. Qed.

Lemma default_path_id (ev : event) (i : string) :
  nonempty (path_id ev) = Some i -> default "" (path_id ev) = i.
Proof.
  unfold nonempty. destruct (path_id ev); [|discriminate].
  destruct (String.eqb _ _); [discriminate|]. intros [= ->]. reflexivity.
Qed.

Section Keeps.

Variable P : gmap string obj -> Prop.

Lemma keeps_ret {A} (a : A) : keeps P (ret a).
Proof. intros E w H. exact H. Qed.

Lemma keeps_throw {A} e : keeps P (A:=A) (throw e).
Proof. intros E w H. exact H. Qed.

Lemma keeps_bind {A B} (m : M B) (k : B -> M A) :
  keeps P m -> (forall b, keeps P (k b)) -> keeps P (bind m k).
Proof.
  intros Hm Hk E w H. unfold bind. specialize (Hm E w H).
  destruct (m E w) as [[b|e] w']; [apply Hk|]; exact Hm.
Qed.

Lemma keeps_try {A} (m : M A) h :
  keeps P m -> (forall e, keeps P (h e)) -> keeps P (try_catch m h).
Proof.
  intros Hm Hh E w H. unfold try_catch. specialize (Hm E w H).
  destruct (m E w) as [[a|e] w']; [|apply Hh]; exact Hm.
Qed.

Lemma keeps_send c : keeps P (send c).
Proof. intros E w H. unfold send. destruct (fault E c); exact H. Qed.

Lemma keeps_now : keeps P now.
Proof. intros E w H. exact H. Qed.

Lemma keeps_get_prop v k : keeps P (get_prop v k).
Proof. intros E w H. destruct v; exact H. Qed.

Lemma keeps_json_parse s : keeps P (json_parse s).
Proof. intros E w H. unfold json_parse. destruct (Json.parse s); exact H. Qed.

Lemma keeps_gw_scan : keeps P gw_scan.
Proof. apply keeps_bind; [apply keeps_send|]. intros _ E w H. exact H. Qed.

Lemma keeps_gw_get key : keeps P (gw_get key).
Proof. apply keeps_bind; [apply keeps_send|]. intros _ E w H. destruct key; exact H. Qed.

End Keeps.

Lemma obj_set_keys (o : obj) k v k' :
  k' ∈ map fst (obj_set o k v) -> k' = k \/ k' ∈ map fst o.
Proof.
  induction o as [|[k0 v0] o IH]; simpl; [set_solver|].
  destruct (String.eqb_spec k0 k) as [->|]; simpl; rewrite !elem_of_cons; [tauto|].
  intros [->|Hin]; [tauto|]. destruct (IH Hin); tauto.
Qed.

Lemma obj_set_nodup (o : obj) k v : NoDup (map fst o) -> NoDup (map fst (obj_set o k v)).
Proof.
  induction o as [|[k0 v0] o IH]; simpl; intros Hnd.
  - constructor; [set_solver|constructor].
  - destruct (String.eqb_spec k0 k) as [->|Hne]; simpl; [exact Hnd|].
    apply NoDup_cons in Hnd as [Hn Hnd]. apply NoDup_cons. split; [|auto].
    intros Hin. destruct (obj_set_keys _ _ _ _ Hin); [congruence|contradiction].
Qed.

Lemma obj_spread_nodup (acc src : obj) : NoDup (map fst acc) -> NoDup (map fst (obj_spread acc src)).
Proof.
  unfold obj_spread. revert acc. induction src as [|kv src IH]; intros acc H; simpl; [exact H|].
  apply IH, obj_set_nodup, H.
Qed.

Lemma keeps_gw_delete_wf key : keeps table_wf (gw_delete key).
Proof.
  apply keeps_bind; [apply keeps_send|]. intros _ E w H. destruct key; try exact H.
  simpl. intros k o Hk. rewrite lookup_delete_Some in Hk. apply H, Hk.
Qed.

(** [PutCommand] keys the item by its own [id], so an item with distinct
    property names keeps the table well formed. *)
Lemma keeps_gw_put_wf item : NoDup (map fst item) -> keeps table_wf (gw_put item).
Proof.
  intros Hnd. apply keeps_bind; [apply keeps_send|]. intros _ E w H.
  destruct (obj_lookup item "id") as [[| | | |k| |]|] eqn:Hid; try exact H.
  simpl. intros k' o Hk. rewrite lookup_insert_Some in Hk.
  destruct Hk as [[<- <-]|[_ Hk]]; [split; assumption|apply H, Hk].
Qed.

Ltac keep_walk :=
  repeat match goal with
  | |- keeps _ (bind _ _) => apply keeps_bind; [|intro]
  | |- keeps _ (try_catch _ _) => apply keeps_try; [|intro]
  | |- keeps _ (ret _) => apply keeps_ret
  | |- keeps _ (throw _) => apply keeps_throw
  | |- keeps _ now => apply keeps_now
  | |- keeps _ (get_prop _ _) => apply keeps_get_prop
  | |- keeps _ (json_parse _) => apply keeps_json_parse
  | |- keeps _ gw_scan => apply keeps_gw_scan
  | |- keeps _ (gw_get _) => apply keeps_gw_get
  | |- keeps table_wf (gw_delete _) => apply keeps_gw_delete_wf
  | |- keeps table_wf (gw_put _) => apply keeps_gw_put_wf
  | |- _ => progress (cbv zeta)
  | |- _ => case_match
  end.

Lemma actors_merge_nodup s a st : NoDup (map fst (Actors.merge_update s a st)).
Proof. apply obj_set_nodup, obj_spread_nodup, obj_spread_nodup. constructor. Qed.

Lemma actors_handler_keeps cfg ev : keeps table_wf (Actors.handler cfg ev).
Proof.
  unfold Actors.handler, Actors.listAll, Actors.getById, Actors.create, Actors.update,
    Actors.allowed_updates, Actors.delete, Actors.id_required.
  keep_walk; try apply actors_merge_nodup; apply (bool_decide_unpack _); reflexivity.
Qed.

Lemma l3_new_show_nodup t st : NoDup (map fst (TVShowsL3.new_show t st)).
Proof. apply (bool_decide_unpack _). reflexivity. Qed.

Lemma tvshows_handlers_keep cfg ev :
  keeps table_wf (TVShowsL3.handler cfg ev) /\ keeps table_wf (TVShowsL1.handler ev) /\
  keeps table_wf (TVShowsL2.handler ev).
Proof.
  unfold TVShowsL3.handler, TVShowsL3.listAll, TVShowsL3.getById, TVShowsL3.create,
    TVShowsL3.deleteById, TVShowsL3.id_required, TVShowsL1.handler, TVShowsL2.handler,
    TVShowsL2.listTVShows, TVShowsL2.getTVShow, TVShowsL2.createTVShow, TVShowsL2.deleteTVShow.
  split; [|split]; keep_walk; apply l3_new_show_nodup.
Qed.

Ltac err_split :=
  repeat (match goal with
  | |- context [match fault ?E ?c with _ => _ end] => destruct (fault E c)
  | |- context [if truthy ?v then _ else _] => destruct (truthy v)
  | |- context [match ?t !! ?k with _ => _ end] => destruct (t !! k)
  | |- context [match obj_lookup ?o ?k with _ => _ end] => destruct (obj_lookup o k) as [[| | | | | |]|]
  | |- context [match ?v with JUndef => _ | JNull => _ | JBool _ => _ | JNum _ _ => _
                | JStr _ => _ | JArr _ => _ | JObj _ => _ end] => destruct v
  end; run_step);
  cbn [statusCode table]; first [reflexivity | lia | intros; lia].

Lemma err_ret r : err_no_write (ret r).
Proof. intros E w _. reflexivity. Qed.

Lemma err_try m h : err_no_write m -> (forall e, err_no_write (h e)) -> err_no_write (try_catch m h).
Proof.
  intros Hm Hh E w. unfold try_catch. specialize (Hm E w).
  destruct (m E w) as [[r|e] w']; [exact Hm|]. specialize (Hh e E w').
  destruct (h e E w') as [[r|e'] w'']; [intros Hs; rewrite (Hh Hs); exact Hm|congruence].
Qed.

Lemma err_bind_json s k : (forall v, err_no_write (k v)) -> err_no_write (bind (json_parse s) k).
Proof.
  intros Hk E w. unfold bind, json_parse. destruct (Json.parse s); [apply Hk|reflexivity].
Qed.

Ltac err_walk :=
  repeat match goal with
  | |- err_no_write (try_catch _ _) => apply err_try; [|intro]
  | |- err_no_write (bind (json_parse _) _) => apply err_bind_json; intro
  | |- err_no_write (ret _) => apply err_ret
  | |- _ => progress (cbv zeta)
  | |- _ => case_match
  end.

Lemma actors_listAll_err : err_no_write Actors.listAll.
Proof. intros E [tb ck tr]. unfold Actors.listAll. run_step. err_split. Qed.
Lemma actors_getById_err i : err_no_write (Actors.getById i).
Proof. intros E [tb ck tr]. unfold Actors.getById. run_step. err_split. Qed.
Lemma actors_create_err a : err_no_write (Actors.create a).
Proof. intros E [tb ck tr]. unfold Actors.create. run_step. destruct a; run_step; err_split. Qed.
Lemma actors_update_err i u : err_no_write (Actors.update i u).
Proof. intros E [tb ck tr]. unfold Actors.update, Actors.allowed_updates. run_step. err_split. Qed.
Lemma actors_delete_err i : err_no_write (Actors.delete i).
Proof. intros E [tb ck tr]. unfold Actors.delete. run_step. err_split. Qed.

Lemma l3_create_err v : err_no_write (TVShowsL3.create v).
Proof. intros E [tb ck tr]. unfold TVShowsL3.create. run_step. destruct v; run_step; err_split. Qed.

Lemma ts_create_err v : err_no_write (TVShowsTS.create v).
Proof. intros E [tb ck tr]. unfold TVShowsTS.create. run_step. destruct v; run_step; err_split. Qed.
Lemma ts_update_err i v : err_no_write (TVShowsTS.update i v).
Proof. intros E [tb ck tr]. unfold TVShowsTS.update, TVShowsTS.stamp_show. run_step. err_split. Qed.

(** ** Routing of the TVShows handlers *)

(** The item-path test holds exactly when [/tvshows/] followed by a word
    character or [-] occurs somewhere in the path. *)
Lemma tvshows_item_match_spec (p : string) :
  tvshows_item_match p = true <->
  exists a c b, p = a +:+ "/tvshows/" +:+ String c b /\ word_char c = true.
Proof.
  induction p as [|c0 p IH].
  - split; [discriminate|]. intros (a & c & b & Hp & _).
    symmetry in Hp. destruct (append_not_empty a _ "/"%char Hp).
  - cbn [tvshows_item_match]. rewrite orb_true_iff, andb_true_iff, prefix_iff, IH. split.
    + intros [[[r Hr] Hw] | (a & c & b & Hp & Hw)].
      * rewrite Hr in Hw. cbn in Hw. destruct r as [|c r]; [discriminate|].
        exists EmptyString, c, r. split; [exact Hr|exact Hw].
      * exists (String c0 a), c, b. rewrite Hp. split; [reflexivity|exact Hw].
    + intros ([|c1 a] & c & b & Hp & Hw).
      * left. split; [exists (String c b); exact Hp|]. rewrite Hp. exact Hw.
      * right. injection Hp as <- Hp. exists a, c, b. split; [exact Hp|exact Hw].
Qed.

(** X1.  With the table name set, on a healthy store, the L3 handler serves
    a GET or a DELETE whose path merely contains [/tvshows/] followed by a
    word character or [-] anywhere (such as [/api/tvshows/s1/extra]) as
    [getById], respectively [deleteById], of the non-empty [id] path
    parameter. *)
Theorem l3_routes_any_tvshows_subpath (cfg : config) (ev : event) (a b : string) (c : ascii)
    (i : string) (E : env) (w : world) :
  table_name_unset cfg = false -> healthy E ->
  path ev = a +:+ "/tvshows/" +:+ String c b -> word_char c = true ->
  nonempty (path_id ev) = Some i ->
  (httpMethod ev = "GET" -> TVShowsL3.handler cfg ev E w = TVShowsL3.getById i E w) /\
  (httpMethod ev = "DELETE" -> TVShowsL3.handler cfg ev E w = TVShowsL3.deleteById i E w).
Proof.
  intros Hcfg HE Hp Hc Hi.
  assert (Hm : tvshows_item_match (path ev) = true).
  { apply tvshows_item_match_spec. exists a, c, b. split; [exact Hp|exact Hc]. }
  assert (Hl : String.eqb (path ev) "/tvshows" = false).
  { destruct (String.eqb_spec (path ev) "/tvshows") as [He|]; [rewrite He in Hm; discriminate|reflexivity]. }
  unfold TVShowsL3.handler. rewrite Hcfg, Hm, Hl, Hi.
  split; intros Hmeth; rewrite Hmeth; eqb_lit; run_step.
  - rewrite (l3_getById_run _ _ _ HE). reflexivity.
  - rewrite (l3_deleteById_run _ _ _ HE). reflexivity.
Qed.

Lemma l3_routes_any_tvshows_subpath_witness :
  let ev := mk_event "GET" "/tvshows/{id}" "/api/tvshows/s1/extra" (Some [("id", "s1")]) None in
  (httpMethod ev = "GET" -> TVShowsL3.handler cfg_set ev ok_env w_s1 = TVShowsL3.getById "s1" ok_env w_s1) /\
  (httpMethod ev = "DELETE" -> TVShowsL3.handler cfg_set ev ok_env w_s1 = TVShowsL3.deleteById "s1" ok_env w_s1).
Proof.
  apply (l3_routes_any_tvshows_subpath cfg_set
           (mk_event "GET" "/tvshows/{id}" "/api/tvshows/s1/extra" (Some [("id", "s1")]) None)
           "/api" "1/extra" "s"%char "s1" ok_env w_s1);
    [reflexivity|intros c; reflexivity|reflexivity|reflexivity|reflexivity].
Defined.

(** X2.  With the table name set, the L1 handler answers every request as the
    L3 handler does, with the same DynamoDB calls. *)
Theorem l1_agrees_with_l3 (cfg : config) (ev : event) (E : env) (w : world) :
  table_name_unset cfg = false ->
  TVShowsL1.handler ev E w = TVShowsL3.handler cfg ev E w.
Proof.
  intros Hcfg. unfold TVShowsL3.handler. rewrite Hcfg. reflexivity.
Qed.

Lemma l1_agrees_with_l3_witness :
  TVShowsL1.handler (mk_event "GET" "/tvshows/{id}" "/tvshows/s1" (Some [("id", "s1")]) None) ok_env w_s1 =
  TVShowsL3.handler cfg_set (mk_event "GET" "/tvshows/{id}" "/tvshows/s1" (Some [("id", "s1")]) None)
    ok_env w_s1.
Proof. apply l1_agrees_with_l3. reflexivity. Defined.

(** X3.  With the table name set and a non-empty [id] path parameter, the L2
    handler answers every request as the L3 handler does. *)
Theorem l2_agrees_with_l3 (cfg : config) (ev : event) (i : string) (E : env) (w : world) :
  table_name_unset cfg = false -> path_id ev = Some i -> i <> "" ->
  TVShowsL2.handler ev E w = TVShowsL3.handler cfg ev E w.
Proof.
  intros Hcfg Hp Hi. unfold TVShowsL3.handler, TVShowsL2.handler, TVShowsL2.path_id_value.
  rewrite Hcfg, Hp. unfold nonempty. destruct (String.eqb_spec i ""); [congruence|].
  reflexivity.
Qed.

Lemma l2_agrees_with_l3_witness :
  TVShowsL2.handler (mk_event "DELETE" "/tvshows/{id}" "/tvshows/s1" (Some [("id", "s1")]) None) ok_env w_s1 =
  TVShowsL3.handler cfg_set (mk_event "DELETE" "/tvshows/{id}" "/tvshows/s1" (Some [("id", "s1")]) None)
    ok_env w_s1.
Proof. apply (l2_agrees_with_l3 _ _ "s1"); [reflexivity|reflexivity|discriminate]. Defined.

(** X4.  A GET or DELETE on an item path without an [id] path parameter is
    answered 500 'Internal server error' by the L2 handler, whatever the
    service does, with the table unchanged; the L3 handler answers it 400
    'ID is required' without any call. *)
Theorem l2_missing_id_server_error (cfg : config) (ev : event) (E : env) (w : world) :
  table_name_unset cfg = false -> path_id ev = None ->
  httpMethod ev = "GET" \/ httpMethod ev = "DELETE" -> tvshows_item_match (path ev) = true ->
  fst (TVShowsL2.handler ev E w) = Ok (mk_response 500 [] (message "Internal server error")) /\
  table (snd (TVShowsL2.handler ev E w)) = table w /\
  TVShowsL3.handler cfg ev E w = (Ok (mk_response 400 [] (message "ID is required")), w).
Proof.
  intros Hcfg Hp Hm Hr. destruct w as [tb ck tr].
  unfold TVShowsL3.handler, TVShowsL2.handler, TVShowsL2.path_id_value,
    TVShowsL2.getTVShow, TVShowsL2.deleteTVShow.
  rewrite Hcfg, Hp, Hr.
  assert (Hl : String.eqb (path ev) "/tvshows" = false).
  { destruct (String.eqb_spec (path ev) "/tvshows") as [He|]; [rewrite He in Hr; discriminate|reflexivity]. }
  rewrite Hl.
  destruct Hm as [Hm|Hm]; rewrite Hm; eqb_lit; run_step;
    repeat match goal with |- context[fault E ?c] => destruct (fault E c) end;
    run_step; cbn [nonempty fst snd table]; repeat split.
Qed.

Lemma l2_missing_id_server_error_witness :
  fst (TVShowsL2.handler (mk_event "GET" "/tvshows/{id}" "/tvshows/s1" None None) ok_env w_s1) =
    Ok (mk_response 500 [] (message "Internal server error")) /\
  table (snd (TVShowsL2.handler (mk_event "GET" "/tvshows/{id}" "/tvshows/s1" None None) ok_env w_s1)) =
    table w_s1 /\
  TVShowsL3.handler cfg_set (mk_event "GET" "/tvshows/{id}" "/tvshows/s1" None None) ok_env w_s1 =
    (Ok (mk_response 400 [] (message "ID is required")), w_s1).
Proof.
  apply l2_missing_id_server_error; [reflexivity|reflexivity|left; reflexivity|vm_compute; reflexivity].
Defined.

(** ** Actors controller and handler *)

(** X5.  On a healthy store, [listAll] answers 200 with every stored item and
    a [count] equal to the number of items, after one scan. *)
Theorem actors_listAll_run (E : env) (w : world) :
  healthy E ->
  Actors.listAll E w =
    (Ok (mk_response 200 [content_type; allow_origin]
           (Body_json (JObj [("actors", JArr (map JObj (map snd (map_to_list (table w)))));
                             ("count", JNum (Z.of_nat (size (table w))) 0)]))),
     mk_world (table w) (clock w + Z.of_N (latency E GScan)) (trace w ++ [GScan])).
Proof.
  destruct w as [tb ck tr]. simpl. intros HE.
  unfold Actors.listAll. run_step. rewrite HE. run_step.
  rewrite length_map, length_map_to_list. unfold js_or, truthy.
  destruct (Z.eqb_spec (Z.of_nat (size tb)) 0) as [->|]; reflexivity.
Qed.

Lemma actors_listAll_run_witness :
  Actors.listAll ok_env w_a1 =
    (Ok (mk_response 200 [content_type; allow_origin]
           (Body_json (JObj [("actors", JArr [JObj actor_a1]); ("count", JNum 1 0)]))),
     mk_world (table w_a1) (clock w_a1 + 1) [GScan]).
Proof. apply (actors_listAll_run ok_env w_a1). intros c. reflexivity. Defined.

(** X6.  [create] of an object without a truthy [id] or [name] answers 400
    'id and name are required fields' and makes no call, whatever the
    service. *)
Theorem actors_create_invalid (p : obj) (E : env) (w : world) :
  truthy (obj_get p "id") = false \/ truthy (obj_get p "name") = false ->
  Actors.create (JObj p) E w =
    (Ok (mk_response 400 [content_type] (message "id and name are required fields")), w).
Proof.
  intros H. unfold Actors.create. run_step.
  destruct (truthy (obj_get p "id")) eqn:Hi; [|reflexivity].
  destruct H as [H|H]; [discriminate|]. rewrite H. reflexivity.
Qed.

Lemma actors_create_invalid_witness :
  Actors.create (JObj [("id", JStr "a2"); ("name", JStr "")]) ok_env w0 =
    (Ok (mk_response 400 [content_type] (message "id and name are required fields")), w0).
Proof. apply actors_create_invalid. right. reflexivity. Defined.

(** X7.  [create] with a truthy [id] that is not a string (a number, say) and
    a truthy [name] answers 500 'Failed to create actor' and writes nothing,
    whatever the service: the key does not match the table's string key. *)
Theorem actors_create_non_string_id (p : obj) (E : env) (w : world) :
  truthy (obj_get p "id") = true -> (forall s, obj_get p "id" <> JStr s) ->
  truthy (obj_get p "name") = true ->
  fst (Actors.create (JObj p) E w) = Ok (mk_response 500 [content_type] (message "Failed to create actor")) /\
  table (snd (Actors.create (JObj p) E w)) = table w.
Proof.
  destruct w as [tb ck tr]. intros Hi Hs Hn. unfold Actors.create. run_step.
  rewrite Hi, Hn. run_step.
  destruct (fault E (GGet (obj_get p "id"))); run_step; [split; reflexivity|].
  destruct (obj_get p "id"); try (split; reflexivity). exfalso. eapply Hs; reflexivity.
Qed.

Lemma actors_create_non_string_id_witness :
  fst (Actors.create (JObj [("id", JNum 7 0); ("name", JStr "Y")]) ok_env w0) =
    Ok (mk_response 500 [content_type] (message "Failed to create actor")) /\
  table (snd (Actors.create (JObj [("id", JNum 7 0); ("name", JStr "Y")]) ok_env w0)) = table w0.
Proof. apply actors_create_non_string_id; [reflexivity|discriminate|reflexivity]. Defined.

(** X8.  [update] of a stored id with a [null] or [undefined] payload answers
    500 'Failed to update actor' after the read, and writes nothing. *)
Theorem actors_update_null (E : env) (w : world) (i : string) (s : obj) (u : jsval) :
  healthy E -> table w !! i = Some s -> u = JNull \/ u = JUndef ->
  Actors.update i u E w =
    (Ok (mk_response 500 [content_type] (message "Failed to update actor")),
     mk_world (table w) (clock w + Z.of_N (latency E (GGet (JStr i)))) (trace w ++ [GGet (JStr i)])).
Proof.
  destruct w as [tb ck tr]. simpl. intros HE Hs Hu.
  unfold Actors.update. run_step. rewrite HE. run_step. rewrite Hs. run_step.
  destruct Hu as [->| ->]; reflexivity.
Qed.

Lemma actors_update_null_witness :
  Actors.update "a1" JNull ok_env w_a1 =
    (Ok (mk_response 500 [content_type] (message "Failed to update actor")),
     mk_world (table w_a1) (clock w_a1 + 1) [GGet (JStr "a1")]).
Proof.
  apply (actors_update_null ok_env w_a1 "a1" actor_a1 JNull);
    [intros c; reflexivity|apply lookup_singleton_eq|left; reflexivity].
Defined.

(** X9.  On a healthy store, creating an actor under a fresh id and then
    deleting it answers 201 then 204 and gives back the original table. *)
Theorem actors_create_delete_roundtrip (E : env) (w : world) (p : obj) (i : string) :
  healthy E -> obj_lookup p "id" = Some (JStr i) -> i <> "" ->
  truthy (obj_get p "name") = true -> table w !! i = None ->
  let w1 := snd (Actors.create (JObj p) E w) in
  (exists r, fst (Actors.create (JObj p) E w) = Ok r /\ statusCode r = 201) /\
  fst (Actors.delete i E w1) = Ok (mk_response 204 [allow_origin] (Body_text "")) /\
  table (snd (Actors.delete i E w1)) = table w.
Proof.
  intros HE Hid Hi Hn Hf. cbv zeta.
  rewrite (actors_create_fresh E w p i HE Hid Hi Hn Hf). cbn [fst snd].
  rewrite (actors_delete_present _ _ i _ HE) by (cbn [table]; apply lookup_insert_eq).
  split; [eexists; split; reflexivity|]. split; [reflexivity|].
  cbn [table snd]. apply delete_insert_id, Hf.
Qed.

Lemma actors_create_delete_roundtrip_witness :
  let p := [("id", JStr "a2"); ("name", JStr "Y")] in
  let w1 := snd (Actors.create (JObj p) ok_env w_a1) in
  (exists r, fst (Actors.create (JObj p) ok_env w_a1) = Ok r /\ statusCode r = 201) /\
  fst (Actors.delete "a2" ok_env w1) = Ok (mk_response 204 [allow_origin] (Body_text "")) /\
  table (snd (Actors.delete "a2" ok_env w1)) = table w_a1.
Proof.
  apply actors_create_delete_roundtrip;
    [intros c; reflexivity|reflexivity|discriminate|reflexivity|reflexivity].
Defined.

(** X10.  With the table name set, a GET, PUT or DELETE on [/actors/{id}]
    without a non-empty [id] answers 400 'Actor ID is required' and makes no
    call. *)
Theorem actors_item_route_without_id (cfg : config) (ev : event) (E : env) (w : world) :
  table_name_unset cfg = false -> resource ev = "/actors/{id}" ->
  httpMethod ev = "GET" \/ httpMethod ev = "PUT" \/ httpMethod ev = "DELETE" ->
  nonempty (path_id ev) = None ->
  Actors.handler cfg ev E w =
    (Ok (mk_response 400 [content_type] (message "Actor ID is required")), w).
Proof.
  intros Hcfg Hr Hm Hid. unfold Actors.handler. rewrite Hcfg, Hr, Hid.
  destruct Hm as [Hm|[Hm|Hm]]; rewrite Hm; eqb_lit; reflexivity.
Qed.

Lemma actors_item_route_without_id_witness :
  Actors.handler cfg_set (mk_event "PUT" "/actors/{id}" "/actors/" (Some [("id", "")]) (Some "{}"))
    ok_env w_a1 =
    (Ok (mk_response 400 [content_type] (message "Actor ID is required")), w_a1).
Proof. apply actors_item_route_without_id; [reflexivity|reflexivity|right; left; reflexivity|reflexivity]. Defined.

(** X11.  With the table name set, [POST /actors] without a body or with an
    empty one (read as [{}]) answers 400 'id and name are required fields'
    and makes no call. *)
Theorem actors_post_without_body (cfg : config) (ev : event) (E : env) (w : world) :
  table_name_unset cfg = false -> httpMethod ev = "POST" -> resource ev = "/actors" ->
  ev_body ev = None \/ ev_body ev = Some "" ->
  Actors.handler cfg ev E w =
    (Ok (mk_response 400 [content_type] (message "id and name are required fields")), w).
Proof.
  intros Hcfg Hm Hr Hb. unfold Actors.handler, body_or_empty. rewrite Hcfg, Hm, Hr.
  destruct Hb as [-> | ->]; eqb_lit; reflexivity.
Qed.

Lemma actors_post_without_body_witness :
  Actors.handler cfg_set (mk_event "POST" "/actors" "/actors" None None) ok_env w0 =
    (Ok (mk_response 400 [content_type] (message "id and name are required fields")), w0).
Proof. apply actors_post_without_body; [reflexivity|reflexivity|reflexivity|left; reflexivity]. Defined.

(** X12.  With the table name set, [POST /actors] with the body [null] answers
    500 'Failed to create actor' and makes no call. *)
Theorem actors_post_null (cfg : config) (ev : event) (E : env) (w : world) :
  table_name_unset cfg = false -> httpMethod ev = "POST" -> resource ev = "/actors" ->
  Json.parse (body_or_empty ev) = Some JNull ->
  Actors.handler cfg ev E w =
    (Ok (mk_response 500 [content_type] (message "Failed to create actor")), w).
Proof.
  intros Hcfg Hm Hr Hb. unfold Actors.handler, json_parse. rewrite Hcfg, Hm, Hr, Hb.
  eqb_lit. reflexivity.
Qed.

Lemma actors_post_null_witness :
  Actors.handler cfg_set (mk_event "POST" "/actors" "/actors" None (Some "null")) ok_env w0 =
    (Ok (mk_response 500 [content_type] (message "Failed to create actor")), w0).
Proof. apply actors_post_null; [reflexivity|reflexivity|reflexivity|vm_compute; reflexivity]. Defined.

(** X13.  Every write of the Actors handler keeps the table well formed:
    each item stays stored under its own string [id] and has distinct
    property names, whatever the request and the service. *)
Theorem actors_handler_keeps_table_wf (cfg : config) (ev : event) (E : env) (w : world) :
  table_wf (table w) -> table_wf (table (snd (Actors.handler cfg ev E w))).
Proof. apply actors_handler_keeps. Qed.

Lemma actors_handler_keeps_table_wf_witness :
  table_wf (table (snd (Actors.handler cfg_set
    (mk_event "PUT" "/actors/{id}" "/actors/a1" (Some [("id", "a1")]) (Some "[1]")) ok_env w_a1))).
Proof.
  apply actors_handler_keeps_table_wf.
  intros k o H. cbn [table w_a1] in H. apply lookup_singleton_Some in H as [<- <-].
  split; [reflexivity|]. apply (bool_decide_unpack _). reflexivity.
Defined.

(** X14.  The Actors handler never writes on an error: when it answers a
    status of 400 or more, the table is the one it started from. *)
Theorem actors_handler_no_write_on_error (cfg : config) (ev : event) :
  err_no_write (Actors.handler cfg ev).
Proof.
  unfold Actors.handler, Actors.id_required. err_walk;
  auto using actors_listAll_err, actors_getById_err, actors_create_err, actors_update_err,
    actors_delete_err.
Qed.

(** ** L3 TVShows controller and handler *)

(** X15.  On a healthy store, the L3 [create] of an object with a non-empty
    string [id] and a truthy [title] answers 201 and overwrites whatever was
    stored under the id with the new item, after a single put. *)
Theorem l3_create_upsert (E : env) (w : world) (p : obj) (i : string) :
  healthy E -> obj_lookup p "id" = Some (JStr i) -> i <> "" ->
  truthy (obj_get p "title") = true ->
  let item := TVShowsL3.new_show p (iso_string (clock w)) in
  TVShowsL3.create (JObj p) E w =
    (Ok (mk_response 201 []
           (Body_json (JObj [("message", JStr "TV show created successfully"); ("id", JStr i)]))),
     mk_world (<[i := item]> (table w)) (clock w + Z.of_N (latency E (GPut item)))
       (trace w ++ [GPut item])).
Proof.
  destruct w as [tb ck tr]. simpl. intros HE Hid Hi Ht.
  assert (Htr : truthy (JStr i) = true).
  { simpl. destruct (String.eqb_spec i ""); [congruence|reflexivity]. }
  unfold TVShowsL3.create. run_step.
  rewrite (obj_get_lookup _ _ _ Hid), Htr, Ht. run_step.
  rewrite HE. simpl own_props. cbn [TVShowsL3.new_show obj_lookup String.eqb Ascii.eqb Bool.eqb].
  rewrite (obj_get_lookup _ _ _ Hid). reflexivity.
Qed.

Lemma l3_create_upsert_witness :
  let p := [("id", JStr "s1"); ("title", JStr "Y")] in
  let item := TVShowsL3.new_show p (iso_string (clock w_s1)) in
  TVShowsL3.create (JObj p) ok_env w_s1 =
    (Ok (mk_response 201 []
           (Body_json (JObj [("message", JStr "TV show created successfully"); ("id", JStr "s1")]))),
     mk_world (<["s1" := item]> (table w_s1)) (clock w_s1 + 1) [GPut item]).
Proof.
  apply (l3_create_upsert ok_env w_s1 [("id", JStr "s1"); ("title", JStr "Y")] "s1");
    [intros c; reflexivity|reflexivity|discriminate|reflexivity].
Defined.

(** X16.  On a healthy store, the L3 [deleteById] answers 200 whether or not
    the id is stored, removes it, and a second delete of the same id answers
    200 again and leaves the table as the first left it. *)
Theorem l3_delete_twice (E : env) (w : world) (i : string) :
  healthy E ->
  let w1 := snd (TVShowsL3.deleteById i E w) in
  fst (TVShowsL3.deleteById i E w) = Ok (mk_response 200 [] (message "TV show deleted successfully")) /\
  fst (TVShowsL3.deleteById i E w1) = Ok (mk_response 200 [] (message "TV show deleted successfully")) /\
  table w1 = delete i (table w) /\
  table (snd (TVShowsL3.deleteById i E w1)) = table w1.
Proof.
  destruct w as [tb ck tr]. intros HE. cbv zeta. unfold TVShowsL3.deleteById. run_step.
  rewrite !HE. run_step. cbn [fst snd].
  repeat split. apply delete_delete_eq.
Qed.

Lemma l3_delete_twice_witness :
  let w1 := snd (TVShowsL3.deleteById "zz" ok_env w_s1) in
  fst (TVShowsL3.deleteById "zz" ok_env w_s1) = Ok (mk_response 200 [] (message "TV show deleted successfully")) /\
  fst (TVShowsL3.deleteById "zz" ok_env w1) = Ok (mk_response 200 [] (message "TV show deleted successfully")) /\
  table w1 = delete "zz" (table w_s1) /\
  table (snd (TVShowsL3.deleteById "zz" ok_env w1)) = table w1.
Proof. apply l3_delete_twice. intros c. reflexivity. Defined.

(** X17.  With the table name set, L3 [POST /tvshows] without a body or with
    an empty one answers 400 'Request body is required' and makes no call. *)
Theorem l3_post_without_body (cfg : config) (ev : event) (E : env) (w : world) :
  table_name_unset cfg = false -> httpMethod ev = "POST" -> path ev = "/tvshows" ->
  ev_body ev = None \/ ev_body ev = Some "" ->
  TVShowsL3.handler cfg ev E w =
    (Ok (mk_response 400 [] (message "Request body is required")), w).
Proof.
  intros Hcfg Hm Hp Hb. unfold TVShowsL3.handler. rewrite Hcfg, Hm, Hp.
  destruct Hb as [-> | ->]; eqb_lit; reflexivity.
Qed.

Lemma l3_post_without_body_witness :
  TVShowsL3.handler cfg_set (mk_event "POST" "/tvshows" "/tvshows" None (Some "")) ok_env w0 =
    (Ok (mk_response 400 [] (message "Request body is required")), w0).
Proof. apply l3_post_without_body; [reflexivity|reflexivity|reflexivity|right; reflexivity]. Defined.

(** X18.  Every write of the L3, L1 and L2 TVShows handlers keeps the table
    well formed, whatever the request and the service. *)
Theorem tvshows_handlers_keep_table_wf (cfg : config) (ev : event) (E : env) (w : world) :
  table_wf (table w) ->
  table_wf (table (snd (TVShowsL3.handler cfg ev E w))) /\
  table_wf (table (snd (TVShowsL1.handler ev E w))) /\
  table_wf (table (snd (TVShowsL2.handler ev E w))).
Proof.
  intros H. destruct (tvshows_handlers_keep cfg ev) as (H3 & H1 & H2).
  split; [apply H3, H|split; [apply H1, H|apply H2, H]].
Qed.

Lemma tvshows_handlers_keep_table_wf_witness :
  let ev := mk_event "POST" "/tvshows" "/tvshows" None (Some "[1]") in
  table_wf (table (snd (TVShowsL3.handler cfg_set ev ok_env w_s1))) /\
  table_wf (table (snd (TVShowsL1.handler ev ok_env w_s1))) /\
  table_wf (table (snd (TVShowsL2.handler ev ok_env w_s1))).
Proof.
  apply tvshows_handlers_keep_table_wf.
  intros k o H. cbn [table w_s1] in H. apply lookup_singleton_Some in H as [<- <-].
  split; [reflexivity|]. apply (bool_decide_unpack _). reflexivity.
Defined.

(** X19.  The L3 and the part_003 TypeScript TVShows handlers never write on
    an error: when they answer a status of 400 or more, the table is the one
    they started from. *)
Theorem tvshows_handlers_no_write_on_error (cfg : config) (ev : event) :
  err_no_write (TVShowsL3.handler cfg ev) /\ err_no_write (TVShowsTS.handler ev).
Proof.
  split.
  - unfold TVShowsL3.handler, TVShowsL3.id_required. err_walk; auto using l3_create_err;
    intros E [tb ck tr];
    unfold TVShowsL3.listAll, TVShowsL3.getById, TVShowsL3.deleteById; run_step; err_split.
  - unfold TVShowsTS.handler, TVShowsTS.route. err_walk; auto using ts_create_err, ts_update_err;
    intros E [tb ck tr];
    unfold TVShowsTS.listAll, TVShowsTS.getById, TVShowsTS.delete; run_step; err_split.
Qed.

(** ** part_003 TypeScript TVShows controller and handler *)

(** X20.  On a healthy store, the TypeScript [create] of an object without a
    truthy [id] stores the show under the decimal current time, with the
    title 'Untitled Show' when the payload has no truthy [title], and answers
    201 with the item. *)
Theorem ts_create_without_id (E : env) (w : world) (p : obj) :
  healthy E -> truthy (obj_get p "id") = false ->
  let item := TVShowsTS.new_show p (clock w) in
  obj_lookup item "id" = Some (JStr (pretty (clock w))) /\
  obj_lookup item "title" = Some (js_or (obj_get p "title") (JStr "Untitled Show")) /\
  TVShowsTS.create (JObj p) E w =
    (Ok (mk_response 201 TVShowsTS.ct (Body_json (JObj item))),
     mk_world (<[pretty (clock w) := item]> (table w)) (clock w + Z.of_N (latency E (GPut item)))
       (trace w ++ [GPut item])).
Proof.
  destruct w as [tb ck tr]. simpl. intros HE Hid.
  assert (Hl : obj_lookup (TVShowsTS.new_show p ck) "id" = Some (JStr (pretty ck))).
  { unfold TVShowsTS.new_show, js_or. rewrite Hid. reflexivity. }
  split; [exact Hl|]. split; [reflexivity|].
  unfold TVShowsTS.create. run_step. rewrite HE. rewrite Hl. reflexivity.
Qed.

Lemma ts_create_without_id_witness :
  let item := TVShowsTS.new_show [("title", JStr "Y")] (clock w0) in
  obj_lookup item "id" = Some (JStr (pretty (clock w0))) /\
  obj_lookup item "title" = Some (js_or (JStr "Y") (JStr "Untitled Show")) /\
  TVShowsTS.create (JObj [("title", JStr "Y")]) ok_env w0 =
    (Ok (mk_response 201 TVShowsTS.ct (Body_json (JObj item))),
     mk_world (<[pretty (clock w0) := item]> (table w0)) (clock w0 + 1) [GPut item]).
Proof. apply (ts_create_without_id ok_env w0 [("title", JStr "Y")]); [intros c; reflexivity|reflexivity]. Defined.

(** X21.  On a healthy store, a TypeScript [POST /tvshows] without a body or
    with an empty one creates a show: id the decimal current time, title
    'Untitled Show', both timestamps the current time, the other properties
    undefined. *)
Theorem ts_post_without_body (ev : event) (E : env) (w : world) :
  healthy E -> httpMethod ev = "POST" -> path ev = "/tvshows" ->
  ev_body ev = None \/ ev_body ev = Some "" ->
  let stamp := JStr (iso_string (clock w)) in
  let item := [("id", JStr (pretty (clock w))); ("title", JStr "Untitled Show");
               ("createdAt", stamp); ("updatedAt", stamp); ("genre", JUndef);
               ("year", JUndef); ("seasons", JUndef); ("rating", JUndef)] in
  TVShowsTS.handler ev E w =
    (Ok (mk_response 201 TVShowsTS.ct (Body_json (JObj item))),
     mk_world (<[pretty (clock w) := item]> (table w)) (clock w + Z.of_N (latency E (GPut item)))
       (trace w ++ [GPut item])).
Proof.
  destruct w as [tb ck tr]. simpl. intros HE Hm Hp Hb.
  unfold TVShowsTS.handler, TVShowsTS.route, body_or_empty. rewrite Hm, Hp.
  assert (Hj : Json.parse "{}" = Some (JObj [])) by reflexivity.
  destruct Hb as [-> | ->]; eqb_lit; unfold json_parse; rewrite Hj;
    unfold TVShowsTS.create; run_step; rewrite HE; reflexivity.
Qed.

Lemma ts_post_without_body_witness :
  let stamp := JStr (iso_string (clock w0)) in
  let item := [("id", JStr (pretty (clock w0))); ("title", JStr "Untitled Show");
               ("createdAt", stamp); ("updatedAt", stamp); ("genre", JUndef);
               ("year", JUndef); ("seasons", JUndef); ("rating", JUndef)] in
  TVShowsTS.handler (mk_event "POST" "/tvshows" "/tvshows" None None) ok_env w0 =
    (Ok (mk_response 201 TVShowsTS.ct (Body_json (JObj item))),
     mk_world (<[pretty (clock w0) := item]> (table w0)) (clock w0 + 1) [GPut item]).
Proof.
  apply (ts_post_without_body (mk_event "POST" "/tvshows" "/tvshows" None None) ok_env w0);
    [intros c; reflexivity|reflexivity|reflexivity|left; reflexivity].
Defined.

(** X22.  On a healthy store, a TypeScript GET with a non-empty [id] path
    parameter on any path other than [/tvshows] is served as [getById] of
    that id. *)
Theorem ts_get_any_path (ev : event) (i : string) (E : env) (w : world) :
  healthy E -> httpMethod ev = "GET" -> path ev <> "/tvshows" -> nonempty (path_id ev) = Some i ->
  TVShowsTS.handler ev E w = TVShowsTS.getById i E w.
Proof.
  destruct w as [tb ck tr]. intros HE Hm Hp Hi.
  unfold TVShowsTS.handler, TVShowsTS.route. rewrite Hm, Hi, (default_path_id _ _ Hi).
  destruct (String.eqb_spec (path ev) "/tvshows"); [contradiction|]. eqb_lit.
  unfold TVShowsTS.getById. run_step. rewrite HE. run_step.
  destruct (tb !! i); reflexivity.
Qed.

Lemma ts_get_any_path_witness :
  TVShowsTS.handler (mk_event "GET" "/other/{id}" "/other/s1" (Some [("id", "s1")]) None) ok_env w_s1 =
  TVShowsTS.getById "s1" ok_env w_s1.
Proof. apply ts_get_any_path; [intros c; reflexivity|reflexivity|discriminate|reflexivity]. Defined.

(** X23.  On a healthy store, the TypeScript [delete] answers 404 after one
    read when the id is not stored, and otherwise deletes the item and
    answers 204 with an empty body. *)
Theorem ts_delete_run (E : env) (w : world) (i : string) :
  healthy E ->
  TVShowsTS.delete i E w =
    match table w !! i with
    | None => (Ok (mk_response 404 TVShowsTS.ct (message "TV Show not found")),
               mk_world (table w) (clock w + Z.of_N (latency E (GGet (JStr i))))
                 (trace w ++ [GGet (JStr i)]))
    | Some _ => (Ok (mk_response 204 TVShowsTS.ct (Body_text "")),
                 mk_world (delete i (table w))
                   (clock w + Z.of_N (latency E (GGet (JStr i))) + Z.of_N (latency E (GDelete (JStr i))))
                   ((trace w ++ [GGet (JStr i)]) ++ [GDelete (JStr i)]))
    end.
Proof.
  destruct w as [tb ck tr]. simpl. intros HE.
  unfold TVShowsTS.delete. run_step. rewrite HE. run_step.
  destruct (tb !! i); run_step; [rewrite HE|]; reflexivity.
Qed.

Lemma ts_delete_run_witness :
  TVShowsTS.delete "s1" ok_env w_s1 =
    (Ok (mk_response 204 TVShowsTS.ct (Body_text "")),
     mk_world (delete "s1" (table w_s1)) (clock w_s1 + 1 + 1) [GGet (JStr "s1"); GDelete (JStr "s1")]).
Proof. apply (ts_delete_run ok_env w_s1 "s1"). intros c. reflexivity. Defined.

(** X24.  On a healthy store, the TypeScript [update] of an id that is not
    stored answers 404 after one read and writes nothing. *)
Theorem ts_update_absent (E : env) (w : world) (i : string) (u : jsval) :
  healthy E -> table w !! i = None ->
  TVShowsTS.update i u E w =
    (Ok (mk_response 404 TVShowsTS.ct (message "TV Show not found")),
     mk_world (table w) (clock w + Z.of_N (latency E (GGet (JStr i)))) (trace w ++ [GGet (JStr i)])).
Proof.
  destruct w as [tb ck tr]. simpl. intros HE Hn.
  unfold TVShowsTS.update. run_step. rewrite HE. run_step. rewrite Hn. reflexivity.
Qed.

Lemma ts_update_absent_witness :
  TVShowsTS.update "s2" (JObj []) ok_env w_s1 =
    (Ok (mk_response 404 TVShowsTS.ct (message "TV Show not found")),
     mk_world (table w_s1) (clock w_s1 + 1) [GGet (JStr "s2")]).
Proof. apply (ts_update_absent ok_env w_s1 "s2" (JObj [])); [intros c; reflexivity|reflexivity]. Defined.

(** X25.  On a healthy store, a TypeScript PUT of a stored id with the body
    [null] answers 500 with the TypeError's message in the body and writes
    nothing. *)
Theorem ts_put_null (ev : event) (i : string) (s : obj) (E : env) (w : world) :
  healthy E -> httpMethod ev = "PUT" -> nonempty (path_id ev) = Some i ->
  Json.parse (body_or_empty ev) = Some JNull -> table w !! i = Some s ->
  TVShowsTS.handler ev E w =
    (Ok (mk_response 500 TVShowsTS.ct
           (Body_json (JObj [("message", JStr "Internal server error");
                             ("error", JStr "Cannot set properties of null (setting 'id')")]))),
     mk_world (table w) (clock w + Z.of_N (latency E (GGet (JStr i)))) (trace w ++ [GGet (JStr i)])).
Proof.
  destruct w as [tb ck tr]. simpl. intros HE Hm Hi Hb Hs.
  unfold TVShowsTS.handler, TVShowsTS.route, json_parse. rewrite Hm, Hi, (default_path_id _ _ Hi), Hb. eqb_lit.
  unfold TVShowsTS.update. run_step. rewrite HE. run_step. rewrite Hs. reflexivity.
Qed.

Lemma ts_put_null_witness :
  TVShowsTS.handler (mk_event "PUT" "/tvshows/{id}" "/tvshows/s1" (Some [("id", "s1")]) (Some "null"))
    ok_env w_s1 =
    (Ok (mk_response 500 TVShowsTS.ct
           (Body_json (JObj [("message", JStr "Internal server error");
                             ("error", JStr "Cannot set properties of null (setting 'id')")]))),
     mk_world (table w_s1) (clock w_s1 + 1) [GGet (JStr "s1")]).
Proof.
  apply (ts_put_null (mk_event "PUT" "/tvshows/{id}" "/tvshows/s1" (Some [("id", "s1")]) (Some "null"))
           "s1" show_s1 ok_env w_s1);
    [intros c; reflexivity|reflexivity|reflexivity|vm_compute; reflexivity|apply lookup_singleton_eq].
Defined.
